(** * Fit-fitness-app: the workout completion tracker and the exercise
      query actions

    Two parts of the application are embedded here.

    - [RecordContext]: the state held by the [RecordProvider] component
      (the list [workoutDays], the [isLoading] flag and the [error]
      message) together with its two operations, [toggleWorkoutDay] and
      [isWorkoutCompleted].
    - [Actions]: the server-side exercise queries.  Every call to the
      backing store is a field of a record of responses, and the
      [try]/[catch] blocks of the source are written with a small
      exception monad. *)

From Stdlib Require Import List String Ascii Bool ZArith Lia DecimalString.
Import ListNotations.
Local Open Scope string_scope.

(* ================================================================== *)
(** ** The workout completion tracker *)
(* ================================================================== *)

Module RecordContext.

(** Modelled from the spec: the type [WorkoutDay] of [lib/types], which
    the component imports.  The three fields are the ones the component
    reads and writes. *)
Record WorkoutDay : Type := mkWorkoutDay {
  user_id : string;
  date : string;
  completed : bool
}.

(** The object spread [{ ...day, completed: c }]. *)
Definition with_completed (day : WorkoutDay) (c : bool) : WorkoutDay :=
  {| user_id := user_id day; date := date day; completed := c |}.

(** The authenticated user handed out by [useAuth]; only [id] is read. *)
Record User : Type := mkUser { id : string }.

(** The three [useState] cells of the provider that the operations
    below can reach. *)
Record TrackerState : Type := mkState {
  workoutDays : list WorkoutDay;
  isLoading : bool;
  error : option string
}.

Definition setWorkoutDays (f : list WorkoutDay -> list WorkoutDay)
    (st : TrackerState) : TrackerState :=
  {| workoutDays := f (workoutDays st);
     isLoading := isLoading st;
     error := error st |}.

(** The initial state: [useState([])], [useState(true)],
    [useState(null)]. *)
Definition initialState : TrackerState :=
  {| workoutDays := []; isLoading := true; error := None |}.

(** What the awaited server action does: it resolves to an object with
    a [success] field, or it rejects. *)
Record ActionResult : Type := mkResult { success : bool }.

Inductive ActionOutcome : Type :=
| Resolves (result : ActionResult)
| Rejects.

(** Calls that leave the component.  [getUserWorkouts] is the read used
    by the loader and the change subscription. *)
Inductive Call : Type :=
| ToggleWorkoutDayAction (uid : string) (d : string) (c : bool)
| GetUserWorkouts (uid : string).

(** [workoutDays.find(day => day.date === date)] *)
Definition findDay (d : string) (wds : list WorkoutDay) : option WorkoutDay :=
  find (fun day => date day =? d) wds.

(** [existingWorkout ? !existingWorkout.completed : true] *)
Definition newCompletedOf (existingWorkout : option WorkoutDay) : bool :=
  match existingWorkout with
  | Some w => negb (completed w)
  | None => true
  end.

(** The updater passed to the first [setWorkoutDays]. *)
Definition optimisticUpdate (existingWorkout : option WorkoutDay)
    (user : User) (d : string) (newCompleted : bool)
    (prev : list WorkoutDay) : list WorkoutDay :=
  match existingWorkout with
  | Some _ =>
      map (fun day => if date day =? d then with_completed day newCompleted
                      else day) prev
  | None =>
      prev ++ [ {| user_id := id user; date := d; completed := newCompleted |} ]
  end.

(** The updater passed to [setWorkoutDays] on both revert paths (the
    two are the same text in the source). *)
Definition revertUpdate (existingWorkout : option WorkoutDay)
    (d : string) (prev : list WorkoutDay) : list WorkoutDay :=
  match existingWorkout with
  | Some w =>
      map (fun day => if date day =? d then with_completed day (completed w)
                      else day) prev
  | None =>
      filter (fun day => negb (date day =? d)) prev
  end.

(** The list that a context value carries is the [workoutDays] of the
    render that made the value: it is what [toggleWorkoutDay] and
    [isWorkoutCompleted] of that value read, and it is called
    [rendered] below.  The updaters passed to [setWorkoutDays] receive
    the list as it is when they run, which is the list of the state.
    The two are the same list once the component has rendered the
    current state; they differ when a context value is used again
    after an update. *)

(** The state right after the synchronous part of a toggle, that is up
    to the [await]: [existingWorkout] is looked up in the rendered
    list, the update is applied to the current one. *)
Definition optimisticState (user : User) (rendered : list WorkoutDay)
    (d : string) (st : TrackerState) : TrackerState :=
  let existingWorkout := findDay d rendered in
  let newCompleted := newCompletedOf existingWorkout in
  setWorkoutDays (optimisticUpdate existingWorkout user d newCompleted) st.

(** The continuation after the [await], applied to the state as it is
    then; [existingWorkout] is the one found before the [await]. *)
Definition settle (existingWorkout : option WorkoutDay) (d : string)
    (outcome : ActionOutcome) (st : TrackerState) : TrackerState :=
  match outcome with
  | Resolves result =>
      if negb (success result)
      then setWorkoutDays (revertUpdate existingWorkout d) st
      else st
  | Rejects => setWorkoutDays (revertUpdate existingWorkout d) st
  end.

(** [toggleWorkoutDay(date)] of a context value, when nothing else
    updates the list while the write is awaited: the final state and
    the calls issued, in order.  [outcome] is what the awaited action
    does.  (Other updates between the two halves are written with
    [Start] and [Settle] below.) *)
Definition toggleWorkoutDay (user : option User) (rendered : list WorkoutDay)
    (d : string) (outcome : ActionOutcome) (st : TrackerState)
    : TrackerState * list Call :=
  match user with
  | None => (st, [])
  | Some u =>
      let existingWorkout := findDay d rendered in
      let newCompleted := newCompletedOf existingWorkout in
      (settle existingWorkout d outcome (optimisticState u rendered d st),
       [ToggleWorkoutDayAction (id u) d newCompleted])
  end.

(** [workout?.completed || false], on the state whose list the context
    value carries. *)
Definition isWorkoutCompleted (st : TrackerState) (d : string) : bool :=
  let workout := findDay d (workoutDays st) in
  match option_map completed workout with
  | Some true => true
  | Some false => false
  | None => false
  end.

(** A run of calls of [toggleWorkoutDay], each with its user, the list
    of the context value it is made on, its date and its outcome. *)
Fixpoint runToggles
    (ops : list (option User * list WorkoutDay * string * ActionOutcome))
    (st : TrackerState) : TrackerState :=
  match ops with
  | [] => st
  | (u, rendered, d, o) :: rest =>
      runToggles rest (fst (toggleWorkoutDay u rendered d o st))
  end.

(** A write that did not go through: [success:false] or a rejection. *)
Definition writeFailed (outcome : ActionOutcome) : bool :=
  match outcome with
  | Resolves r => negb (success r)
  | Rejects => true
  end.

(** Values used in examples: user "u1" and a state in which
    2024-01-05 is marked as completed. *)
Definition u1 : User := {| id := "u1" |}.

Definition jan5 : WorkoutDay :=
  {| user_id := "u1"; date := "2024-01-05"; completed := true |}.

Definition jan5Done : TrackerState :=
  {| workoutDays :=
       [ {| user_id := "u1"; date := "2024-01-05"; completed := true |} ];
     isLoading := false;
     error := None |}.

(** Two days, the first completed, the second not. *)
Definition twoDays : TrackerState :=
  {| workoutDays :=
       [ {| user_id := "u1"; date := "2024-01-05"; completed := true |};
         {| user_id := "u1"; date := "2024-01-06"; completed := false |} ];
     isLoading := false;
     error := None |}.

Definition writeOk : ActionOutcome := Resolves {| success := true |}.
Definition writeRefused : ActionOutcome := Resolves {| success := false |}.

(** The key of the uniqueness invariant. *)
Definition key (w : WorkoutDay) : string * string := (user_id w, date w).

Definition uniqueDays (wds : list WorkoutDay) : Prop := NoDup (map key wds).

Definition present (d : string) (st : TrackerState) : Prop :=
  findDay d (workoutDays st) <> None.

(** At most one record on the date [d]. *)
Definition atMostOneOn (d : string) (wds : list WorkoutDay) : Prop :=
  forall x y, In x wds -> In y wds -> date x = d -> date y = d -> x = y.

(** The context value shows, for the date, the record that the list
    holds now (the first one, or none). *)
Definition showsCurrent (rendered : list WorkoutDay) (d : string)
    (st : TrackerState) : Prop :=
  findDay d rendered = findDay d (workoutDays st).

(** The context value shows a record for the date whenever the list
    holds one. *)
Definition showsPresence (rendered : list WorkoutDay) (d : string)
    (st : TrackerState) : Prop :=
  findDay d rendered = None -> findDay d (workoutDays st) = None.

(** Every call of a run is made on a context value that shows a record
    for its date whenever the list then holds one. *)
Fixpoint callsShowPresence
    (ops : list (option User * list WorkoutDay * string * ActionOutcome))
    (st : TrackerState) : Prop :=
  match ops with
  | [] => True
  | (u, rendered, d, o) :: rest =>
      showsPresence rendered d st
      /\ callsShowPresence rest (fst (toggleWorkoutDay u rendered d o st))
  end.

(** The lookup as the specification words it: among the records that
    match the date, the flag of the one that comes first, and [false]
    when no record matches. *)
Definition specLookup (wds : list WorkoutDay) (d : string) : bool :=
  match filter (fun w => date w =? d) wds with
  | w :: _ => completed w
  | [] => false
  end.

(** *** The claims on the toggle as they are worded

    Each is stated for every context value the call can be made on. *)

(** After a failed write, the record of the date is what it was before
    the toggle. *)
Definition failureRestoresRecord : Prop :=
  forall (u : User) (rendered : list WorkoutDay) (d : string)
         (o : ActionOutcome) (st : TrackerState),
    writeFailed o = true ->
    findDay d (workoutDays (fst (toggleWorkoutDay (Some u) rendered d o st)))
    = findDay d (workoutDays st).

(** With no record on the date, the optimistic update appends one. *)
Definition firstToggleAppends : Prop :=
  forall (u : User) (rendered : list WorkoutDay) (d : string)
         (st : TrackerState),
    findDay d (workoutDays st) = None ->
    workoutDays (optimisticState u rendered d st)
    = (workoutDays st
       ++ [ {| user_id := id u; date := d; completed := true |} ])%list.

(** Two toggles with successful writes bring the flag back. *)
Definition twoTogglesRestore : Prop :=
  forall (user : option User) (rendered1 rendered2 : list WorkoutDay)
         (d : string) (o1 o2 : ActionOutcome) (st : TrackerState),
    writeFailed o1 = false ->
    writeFailed o2 = false ->
    isWorkoutCompleted
      (fst (toggleWorkoutDay user rendered2 d o2
              (fst (toggleWorkoutDay user rendered1 d o1 st)))) d
    = isWorkoutCompleted st d.

(** Every toggle keeps one record per (user_id, date) at most. *)
Definition togglesKeepUnique : Prop :=
  forall (user : option User) (rendered : list WorkoutDay) (d : string)
         (o : ActionOutcome) (st : TrackerState),
    uniqueDays (workoutDays st) ->
    uniqueDays (workoutDays (fst (toggleWorkoutDay user rendered d o st))).

(** *** The effects of the provider *)

(** A value caught by a handler: an [Error] with its message, or any
    other value. *)
Inductive Thrown : Type :=
| ErrorObject (message : string)
| OtherValue.

(** [err instanceof Error ? err.message : fallback] *)
Definition messageOf (thrown : Thrown) (fallback : string) : string :=
  match thrown with
  | ErrorObject message => message
  | OtherValue => fallback
  end.

(** What awaiting [getUserWorkouts] does. *)
Inductive ReadOutcome : Type :=
| ReadResolves (workouts : list WorkoutDay)
| ReadRejects (thrown : Thrown).

(** The client kept in the fourth state cell. *)
Inductive Client : Type := RecordClient | MockRecordClient.

(** What [createRecordClient()] does. *)
Inductive CreateOutcome : Type :=
| Creates
| CreateThrows (thrown : Thrown).

(** The provider: the three cells above and the client cell,
    [useState(null)]. *)
Record Provider : Type := mkProvider {
  tracker : TrackerState;
  supabase : option Client
}.

Definition initialProvider : Provider :=
  {| tracker := initialState; supabase := None |}.

Definition setIsLoading (b : bool) (st : TrackerState) : TrackerState :=
  {| workoutDays := workoutDays st; isLoading := b; error := error st |}.

Definition setError (e : option string) (st : TrackerState) : TrackerState :=
  {| workoutDays := workoutDays st; isLoading := isLoading st; error := e |}.

(** The first effect: create the client, in the browser only; when
    that throws, record the message, install the mock client and clear
    the loading flag. *)
Definition initClientEffect (inBrowser : bool) (create : CreateOutcome)
    (p : Provider) : Provider :=
  if inBrowser then
    match create with
    | Creates => {| tracker := tracker p; supabase := Some RecordClient |}
    | CreateThrows thrown =>
        {| tracker :=
             setIsLoading false
               (setError
                  (Some (messageOf thrown "Failed to initialize Supabase client"))
                  (tracker p));
           supabase := Some MockRecordClient |}
    end
  else p.

(** [user?.id || ''] *)
Definition idOrEmpty (user : option User) : string :=
  match user with
  | Some u => if id u =? "" then "" else id u
  | None => ""
  end.

(** [loadWorkouts()], with what the awaited read does. *)
Definition loadWorkouts (user : option User) (read : ReadOutcome)
    (st : TrackerState) : TrackerState * list Call :=
  let st1 :=
    match read with
    | ReadResolves workouts => setWorkoutDays (fun _ => workouts) st
    | ReadRejects thrown =>
        setError (Some (messageOf thrown "Failed to load workouts")) st
    end in
  (setIsLoading false st1, [GetUserWorkouts (idOrEmpty user)]).

(** The state part of the second effect: nothing but clearing the flag
    without a user or a client, the load otherwise. *)
Definition loadEffect (user : option User) (read : ReadOutcome)
    (p : Provider) : Provider * list Call :=
  match user, supabase p with
  | Some _, Some _ =>
      let (st, calls) := loadWorkouts user read (tracker p) in
      ({| tracker := st; supabase := supabase p |}, calls)
  | _, _ =>
      ({| tracker := setIsLoading false (tracker p); supabase := supabase p |},
       [])
  end.

(** The kind of row change a notification reports; the handler does
    not look at it. *)
Inductive ChangeEvent : Type := INSERT | UPDATE | DELETE.

(** The handler of the change subscription: [if (user?.id)], read
    again and, when the read resolves, replace the list. *)
Definition onPostgresChanges (user : option User) (payload : ChangeEvent)
    (read : ReadOutcome) (st : TrackerState) : TrackerState * list Call :=
  match user with
  | Some u =>
      if id u =? "" then (st, [])
      else
        (match read with
         | ReadResolves workouts => setWorkoutDays (fun _ => workouts) st
         | ReadRejects _ => st
         end,
         [GetUserWorkouts (id u)])
  | None => (st, [])
  end.

(** One thing that happens to the list: the two halves of a toggle,
    which other steps may separate, a load, a change notification.  A
    [Settle] carries the [existingWorkout] that its call has found. *)
Inductive Step : Type :=
| Start (user : User) (rendered : list WorkoutDay) (d : string)
| Settle (existingWorkout : option WorkoutDay) (d : string)
    (outcome : ActionOutcome)
| Load (user : option User) (read : ReadOutcome)
| Changed (user : option User) (payload : ChangeEvent) (read : ReadOutcome).

Definition step (s : Step) (st : TrackerState) : TrackerState :=
  match s with
  | Start user rendered d => optimisticState user rendered d st
  | Settle existingWorkout d outcome => settle existingWorkout d outcome st
  | Load user read => fst (loadWorkouts user read st)
  | Changed user payload read => fst (onPostgresChanges user payload read st)
  end.

Definition steps (l : list Step) (st : TrackerState) : TrackerState :=
  fold_left (fun acc s => step s acc) l st.

(** Every list a read hands over has one record per date at most. *)
Definition readsUnique (l : list Step) : Prop :=
  Forall (fun s =>
            match s with
            | Load _ (ReadResolves workouts)
            | Changed _ _ (ReadResolves workouts) =>
                NoDup (map date workouts)
            | _ => True
            end) l.

(** Every toggle of the steps is started on a context value that shows
    a record for its date whenever the list then holds one. *)
Fixpoint startsShowPresence (l : list Step) (st : TrackerState) : Prop :=
  match l with
  | [] => True
  | s :: rest =>
      match s with
      | Start _ rendered d => showsPresence rendered d st
      | _ => True
      end
      /\ startsShowPresence rest (step s st)
  end.

(** "Never locally deleted", as it is worded: a date that has a record
    still has one after any tracker operation. *)
Definition neverLocallyDeleted : Prop :=
  forall (s : Step) (st : TrackerState) (d : string),
    present d st -> present d (step s st).

(** The steps that leave no record on the date [d]: the rollback of a
    toggle of [d] whose call had found no record, and a read that
    brings a list without a record on [d]. *)
Definition removes (s : Step) (d : string) : Prop :=
  match s with
  | Start _ _ _ => False
  | Settle existingWorkout d0 outcome =>
      existingWorkout = None /\ d0 = d /\ writeFailed outcome = true
  | Load _ (ReadResolves workouts) => findDay d workouts = None
  | Load _ (ReadRejects _) => False
  | Changed (Some u) _ (ReadResolves workouts) =>
      id u <> "" /\ findDay d workouts = None
  | Changed _ _ _ => False
  end.

End RecordContext.

(* ================================================================== *)
(** ** The exercise query actions *)
(* ================================================================== *)

Module Actions.

(** *** Exceptions and responses *)

(** A thrown JavaScript value; only its presence matters to the
    handlers, which log it and return a default. *)
Inductive Exn : Type := JsError (message : string).

(** The [error] member of a response of the backing store. *)
Record PostgrestError : Type := mkError { message : string }.

(** Awaiting a query yields the object [{ data, error }] or the promise
    rejects.  The client library answers with one of two shapes: a
    success, whose [error] is [null] (its [data] may still be [null],
    and the actions test for that), or a failure, whose [data] is
    [null]. *)
Inductive Response (A : Type) : Type :=
| Success (data : option A)
| Failure (error : PostgrestError)
| Rejected (reason : Exn).
Arguments Success {A} data.
Arguments Failure {A} error.
Arguments Rejected {A} reason.

(** The queries the actions issue, with the values they are built
    from. *)
Inductive Query : Type :=
| CategoriesIlike (pattern : string)
| CategoriesAll
| CategoryIdsIlike (pattern : string)
| ExercisesByCategory (category_id : string)
| ExercisesLimit10
| ExerciseById (id : Z)
| RpcGetExerciseGroupsWithDetails
| ExerciseGroupsByName
| ExerciseFirAll
| ExerciseBodySectionAll
| ExerciseGroupDetail (id : Z)
| ExercisesByGroup (exercise_group : string)
| BodySectionById (id : Z)
| FirById (id : Z)
| BodySectionsOrdered.

(** What came back from an awaited query. *)
Inductive Reply : Type := Answered | Errored | Threw.

Definition Event : Type := Query * Reply.

(** How a function body ends. *)
Inductive Completion (A : Type) : Type :=
| Return (a : A)
| Throw (e : Exn).
Arguments Return {A} a.
Arguments Throw {A} e.

(** A run: the queries awaited, in order, each with what came back,
    and the way the run ended. *)
Definition Run (A : Type) : Type := list Event * Completion A.

Definition issued {A : Type} (r : Run A) : list Event := fst r.
Definition completion {A : Type} (r : Run A) : Completion A := snd r.

Definition ret {A : Type} (a : A) : Run A := ([], Return a).

Definition bind {A B : Type} (c : Run A) (k : A -> Run B) : Run B :=
  match c with
  | (log, Return a) => let (log', r) := k a in ((log ++ log')%list, r)
  | (log, Throw e) => (log, Throw e)
  end.

Notation "x <- c ;; k" := (bind c (fun x => k))
  (at level 61, c at next level, right associativity).
Notation "' pat <- c ;; k" :=
  (bind c (fun x => match x with pat => k end))
  (at level 61, pat pattern, c at next level, right associativity).

(** [const { data, error } = await query] *)
Definition await {A : Type} (q : Query) (r : Response A)
    : Run (option A * option PostgrestError) :=
  match r with
  | Success data => ([(q, Answered)], Return (data, None))
  | Failure error => ([(q, Errored)], Return (None, Some error))
  | Rejected reason => ([(q, Threw)], Throw reason)
  end.

(** [try { body } catch (error) { handler }] *)
Definition tryCatch {A : Type} (body : Run A) (handler : Exn -> Run A)
    : Run A :=
  match body with
  | (log, Return a) => (log, Return a)
  | (log, Throw e) => let (log', r) := handler e in ((log ++ log')%list, r)
  end.

(** *** Rows of the backing store *)

Module Category.
Record t : Type := mk { id : string; name : string }.
End Category.

Module CategoryId.
Record t : Type := mk { id : string }.
End CategoryId.

Module Exercise.
Record t : Type := mk {
  id : Z;
  name : string;
  image_url : option string;
  ex_description : option string;
  duration : option string;
  reps : option string
}.
End Exercise.

Module BodySection.
Record t : Type := mk { id : Z; body_section : string }.
End BodySection.

Module BodySectionName.
Record t : Type := mk { body_section : string }.
End BodySectionName.

Module Fir.
Record t : Type := mk { id : Z; name : string }.
End Fir.

Module FirName.
Record t : Type := mk { name : string }.
End FirName.

(** A row of [exercise_groups] with the five selected columns. *)
Module GroupRow.
Record t : Type := mk {
  id : Z;
  name : string;
  image_url : option string;
  body_sec : Z;
  fir_level : option Z
}.
End GroupRow.

(** A row returned by the procedure [get_exercise_groups_with_details]. *)
Module RpcGroup.
Record t : Type := mk {
  id : Z;
  name : string;
  image_url : option string;
  body_sec : Z;
  fir_level : option Z;
  body_section : option string;
  fir_name : option string
}.
End RpcGroup.

(** An embedded relation as it can arrive: missing, an array of rows, a
    single row, or some other truthy value that is not an object. *)
Inductive Joined (A : Type) : Type :=
| JMissing
| JArray (rows : list A)
| JObject (row : A)
| JScalar.
Arguments JMissing {A}.
Arguments JArray {A} rows.
Arguments JObject {A} row.
Arguments JScalar {A}.

(** The group row with its two embedded relations. *)
Module GroupDetail.
Record t : Type := mk {
  body_sec : Z;
  fir_level : option Z;
  exercise_body_section : Joined BodySection.t;
  exercise_fir : Joined Fir.t
}.
End GroupDetail.

(** *** Values returned to the caller *)

Module ExerciseWithLabels.
Record t : Type := mk {
  id : Z;
  name : string;
  image : string;
  description : option string;
  duration : option string;
  reps : option string;
  labels : list string;
  (* an optional member: absent in some of the results *)
  categories : option (list string)
}.
End ExerciseWithLabels.

Module ExerciseGroup.
Record t : Type := mk {
  id : Z;
  name : string;
  description : option string;
  image_url : option string;
  body_sec : Z;
  body_section_name : option string;
  fir_level : option Z;
  fir_level_name : option string;
  category_id : option string
}.
End ExerciseGroup.

(** *** The backing store

    One field per query the actions issue; the arguments are the
    values the query is built from. *)
Record Supabase : Type := mkSupabase {
  (* from('categories').select('id, name').ilike('name', pattern) *)
  categories_ilike : string -> Response (list Category.t);
  (* from('categories').select('id, name') *)
  categories_all : Response (list Category.t);
  (* from('categories').select('id').ilike('name', pattern) *)
  category_ids_ilike : string -> Response (list CategoryId.t);
  (* from('exercises').select(all).eq('category_id', id) *)
  exercises_by_category : string -> Response (list Exercise.t);
  (* from('exercises').select(all).limit(10) *)
  exercises_limit_10 : Response (list Exercise.t);
  (* from('exercises').select(all).eq('id', id).single() *)
  exercise_by_id : Z -> Response Exercise.t;
  (* rpc('get_exercise_groups_with_details') *)
  rpc_get_exercise_groups_with_details : Response (list RpcGroup.t);
  (* from('exercise_groups').select(five columns).order('name') *)
  exercise_groups_by_name : Response (list GroupRow.t);
  (* from('exercise_fir').select('id, name') *)
  exercise_fir_all : Response (list Fir.t);
  (* from('exercise_body_section').select('id, body_section') *)
  exercise_body_section_all : Response (list BodySection.t);
  (* from('exercise_groups').select(all columns and the two inner joins)
       .eq('id', groupId).single() *)
  exercise_group_detail : Z -> Response GroupDetail.t;
  (* from('exercises').select(all).eq('exercise_group', text) *)
  exercises_by_group : string -> Response (list Exercise.t);
  (* from('exercise_body_section').select('body_section').eq('id', n).single() *)
  body_section_by_id : Z -> Response BodySectionName.t;
  (* from('exercise_fir').select('name').eq('id', n).single() *)
  fir_by_id : Z -> Response FirName.t;
  (* from('exercise_body_section').select('body_section').order('id') *)
  body_sections_ordered : Response (list BodySectionName.t)
}.

(** *** JavaScript operators on the values above *)

(** Truthiness of a string-or-null and of a number-or-null. *)
Definition truthyString (o : option string) : bool :=
  match o with
  | Some s => negb (s =? "")
  | None => false
  end.

Definition truthyNumber (o : option Z) : bool :=
  match o with
  | Some z => negb (z =? 0)%Z
  | None => false
  end.

(** [value || fallback] with a string fallback. *)
Definition orElse (o : option string) (fallback : string) : string :=
  match o with
  | Some s => if s =? "" then fallback else s
  | None => fallback
  end.

(** [value || null] *)
Definition orNull (o : option string) : option string :=
  if truthyString o then o else None.

(** [s.includes(sub)] *)
Definition includes (s sub : string) : bool :=
  match String.index 0 sub s with
  | Some _ => true
  | None => false
  end.

(** [s.startsWith(p)] *)
Definition startsWith (s p : string) : bool := String.prefix p s.

(** Case mapping, on the ASCII letters; other characters are kept. *)
Definition lowerAscii (c : ascii) : ascii :=
  let n := nat_of_ascii c in
  if ((65 <=? n) && (n <=? 90))%nat then ascii_of_nat (n + 32) else c.

Definition upperAscii (c : ascii) : ascii :=
  let n := nat_of_ascii c in
  if ((97 <=? n) && (n <=? 122))%nat then ascii_of_nat (n - 32) else c.

Fixpoint toLowerCase (s : string) : string :=
  match s with
  | EmptyString => EmptyString
  | String c rest => String (lowerAscii c) (toLowerCase rest)
  end.

(** The methods of the language that [getExercisesByGroup] relies on
    and whose results depend on how text and numbers are represented:
    they are taken as they are, whatever they compute.  Group ids are
    the integers among the numbers. *)
Record Builtins : Type := mkBuiltins {
  (* Number.prototype.toString *)
  toString : Z -> string;
  (* String.prototype.toUpperCase *)
  toUpperCase : string -> string;
  (* String.prototype.charAt *)
  charAt : string -> nat -> string;
  (* String.prototype.slice, with a start index only *)
  slice : string -> nat -> string
}.

(** [s.charAt(0).toUpperCase() + s.slice(1)] *)
Definition capitalize (js : Builtins) (s : string) : string :=
  toUpperCase js (charAt js s 0) ++ slice js s 1.

(** The methods on ASCII text and on integers written with all their
    digits, for the examples. *)
Fixpoint upperString (s : string) : string :=
  match s with
  | EmptyString => EmptyString
  | String c rest => String (upperAscii c) (upperString rest)
  end.

Definition asciiBuiltins : Builtins :=
  {| toString := fun n => NilZero.string_of_int (Z.to_int n);
     toUpperCase := upperString;
     charAt := fun s i => String.substring i 1 s;
     slice := fun s i => String.substring i (String.length s - i) s |}.

Definition placeholderImage : string := "/placeholder.svg?height=200&width=300".

(** *** The actions *)

Definition getDefaultCategories (exerciseName : string) : list string :=
  let name := toLowerCase exerciseName in
  let categories :=
    if includes name "press" || includes name "pull"
       || includes name "overhead" then ["Upper"]
    else if includes name "thrust" || includes name "brace"
            || includes name "lateral" then ["Middle"]
    else if includes name "squat" || includes name "deadlift"
            || includes name "raise" then ["Lower"]
    else [] in
  categories ++ ["FIR: Low"].

Definition warmupPlaceholder : ExerciseWithLabels.t :=
  {| ExerciseWithLabels.id := 0;
     ExerciseWithLabels.name := "Sample Warmup Exercise";
     ExerciseWithLabels.image := placeholderImage;
     ExerciseWithLabels.description :=
       Some ("This is a placeholder. "
             ++ "No actual warmup exercises found in the database.");
     ExerciseWithLabels.duration := Some "30";
     ExerciseWithLabels.reps := Some "4";
     ExerciseWithLabels.labels := [];
     ExerciseWithLabels.categories := None |}.

Definition getWarmupExercises (supabaseServer : Supabase)
    : Run (list ExerciseWithLabels.t) :=
  tryCatch
    ('(categoryData, categoryError) <-
        await (CategoriesIlike "%warmup%")
               (categories_ilike supabaseServer "%warmup%") ;;
     match categoryError with
     | Some _ => ret []
     | None =>
       match categoryData with
       | None | Some [] =>
           '(allCategories, _) <-
              await CategoriesAll (categories_all supabaseServer) ;;
           ret []
       | Some (category0 :: _) =>
           let warmupCategoryId := Category.id category0 in
           '(exercises, exercisesError) <-
              await (ExercisesByCategory warmupCategoryId)
                    (exercises_by_category supabaseServer warmupCategoryId) ;;
           match exercisesError with
           | Some _ => ret []
           | None =>
             match exercises with
             | None | Some [] => ret [warmupPlaceholder]
             | Some rows =>
                 ret (map (fun exercise =>
                   {| ExerciseWithLabels.id := Exercise.id exercise;
                      ExerciseWithLabels.name := Exercise.name exercise;
                      ExerciseWithLabels.image :=
                        orElse (Exercise.image_url exercise) placeholderImage;
                      ExerciseWithLabels.description :=
                        Some (orElse (Exercise.ex_description exercise)
                                     "No description available");
                      ExerciseWithLabels.duration :=
                        Some (orElse (Exercise.duration exercise) "30");
                      ExerciseWithLabels.reps :=
                        Some (orElse (Exercise.reps exercise) "4");
                      ExerciseWithLabels.labels := [];
                      ExerciseWithLabels.categories := None |}) rows)
             end
           end
       end
     end)
    (fun _ => ret []).

Definition stretchPlaceholder : ExerciseWithLabels.t :=
  {| ExerciseWithLabels.id := 0;
     ExerciseWithLabels.name := "Sample Stretch Exercise";
     ExerciseWithLabels.image := placeholderImage;
     ExerciseWithLabels.description :=
       Some ("This is a placeholder. "
             ++ "No actual stretch exercises found in the database.");
     ExerciseWithLabels.duration := Some "15-30";
     ExerciseWithLabels.reps := None;
     ExerciseWithLabels.labels := [];
     ExerciseWithLabels.categories := None |}.

Definition getStretchExercises (supabaseServer : Supabase)
    : Run (list ExerciseWithLabels.t) :=
  tryCatch
    ('(categoryData, categoryError) <-
        await (CategoriesIlike "%stretch%")
               (categories_ilike supabaseServer "%stretch%") ;;
     match categoryError with
     | Some _ => ret []
     | None =>
       match categoryData with
       | None | Some [] =>
           '(allCategories, _) <-
              await CategoriesAll (categories_all supabaseServer) ;;
           ret []
       | Some (category0 :: _) =>
           let stretchCategoryId := Category.id category0 in
           '(exercises, exercisesError) <-
              await (ExercisesByCategory stretchCategoryId)
                    (exercises_by_category supabaseServer stretchCategoryId) ;;
           match exercisesError with
           | Some _ => ret []
           | None =>
             match exercises with
             | None | Some [] => ret [stretchPlaceholder]
             | Some rows =>
                 ret (map (fun exercise =>
                   let imageUrl :=
                     match Exercise.image_url exercise with
                     | Some url =>
                         if negb (url =? "")
                            && (startsWith url "http" || startsWith url "/")
                         then url else placeholderImage
                     | None => placeholderImage
                     end in
                   {| ExerciseWithLabels.id := Exercise.id exercise;
                      ExerciseWithLabels.name := Exercise.name exercise;
                      ExerciseWithLabels.image := imageUrl;
                      ExerciseWithLabels.description :=
                        Some (orElse (Exercise.ex_description exercise)
                                     "No description available");
                      ExerciseWithLabels.duration :=
                        Some (orElse (Exercise.duration exercise) "15-30");
                      ExerciseWithLabels.reps := orNull (Exercise.reps exercise);
                      ExerciseWithLabels.labels := [];
                      ExerciseWithLabels.categories := None |}) rows)
             end
           end
       end
     end)
    (fun _ => ret []).

Definition workoutPlaceholder : ExerciseWithLabels.t :=
  {| ExerciseWithLabels.id := 0;
     ExerciseWithLabels.name := "Sample Workout Exercise";
     ExerciseWithLabels.image := placeholderImage;
     ExerciseWithLabels.description :=
       Some ("This is a placeholder. "
             ++ "No Workout exercises found in the database.");
     ExerciseWithLabels.duration := Some "60";
     ExerciseWithLabels.reps := None;
     ExerciseWithLabels.labels := [];
     ExerciseWithLabels.categories := Some ["Sample"] |}.

(** The object built from a row in [getWorkoutExercises], on both of
    its mapping paths. *)
Definition workoutOfRow (exercise : Exercise.t) : ExerciseWithLabels.t :=
  {| ExerciseWithLabels.id := Exercise.id exercise;
     ExerciseWithLabels.name := Exercise.name exercise;
     ExerciseWithLabels.image :=
       orElse (Exercise.image_url exercise) placeholderImage;
     ExerciseWithLabels.description :=
       Some (orElse (Exercise.ex_description exercise)
                    "No description available");
     ExerciseWithLabels.duration := orNull (Exercise.duration exercise);
     ExerciseWithLabels.reps := orNull (Exercise.reps exercise);
     ExerciseWithLabels.labels := [];
     ExerciseWithLabels.categories :=
       Some (getDefaultCategories (Exercise.name exercise)) |}.

Definition getWorkoutExercises (supabaseServer : Supabase)
    : Run (list ExerciseWithLabels.t) :=
  tryCatch
    ('(categoryData, categoryError) <-
        await (CategoriesIlike "%workout%")
               (categories_ilike supabaseServer "%workout%") ;;
     match categoryError with
     | Some _ => ret []
     | None =>
       match categoryData with
       | None | Some [] =>
           '(allCategories, _) <-
              await CategoriesAll (categories_all supabaseServer) ;;
           ret []
       | Some (category0 :: _) =>
           let workoutCategoryId := Category.id category0 in
           '(exercises, exercisesError) <-
              await (ExercisesByCategory workoutCategoryId)
                    (exercises_by_category supabaseServer workoutCategoryId) ;;
           match exercisesError with
           | Some _ => ret []
           | None =>
             match exercises with
             | None | Some [] =>
                 '(fallbackExercises, fallbackError) <-
                    await ExercisesLimit10 (exercises_limit_10 supabaseServer) ;;
                 match fallbackError, fallbackExercises with
                 | None, Some (row0 :: rows) =>
                     ret (map workoutOfRow (row0 :: rows))
                 | _, _ => ret [workoutPlaceholder]
                 end
             | Some rows => ret (map workoutOfRow rows)
             end
           end
       end
     end)
    (fun _ => ret []).

(** [undefined] is [None]. *)
Definition getExerciseById (supabaseServer : Supabase) (id : Z)
    : Run (option ExerciseWithLabels.t) :=
  tryCatch
    ('(exercise, error) <-
        await (ExerciseById id) (exercise_by_id supabaseServer id) ;;
     match error, exercise with
     | None, Some exercise =>
         ret (Some
           {| ExerciseWithLabels.id := Exercise.id exercise;
              ExerciseWithLabels.name := Exercise.name exercise;
              ExerciseWithLabels.image :=
                orElse (Exercise.image_url exercise) placeholderImage;
              ExerciseWithLabels.description := Exercise.ex_description exercise;
              ExerciseWithLabels.duration := orNull (Exercise.duration exercise);
              ExerciseWithLabels.reps := orNull (Exercise.reps exercise);
              ExerciseWithLabels.labels := [];
              ExerciseWithLabels.categories :=
                Some (getDefaultCategories (Exercise.name exercise)) |})
     | _, _ => ret None
     end)
    (fun _ => ret None).

Inductive ExerciseType : Type := warmup | stretch | workout.

Definition getExercisesByType (supabaseServer : Supabase)
    (type : ExerciseType) : Run (list ExerciseWithLabels.t) :=
  tryCatch
    (let categoryPattern :=
       match type with
       | warmup => "%warmup%"
       | stretch => "%stretch%"
       | workout => "%workout%"
       end in
     '(categoryData, _) <-
        await (CategoryIdsIlike categoryPattern)
              (category_ids_ilike supabaseServer categoryPattern) ;;
     match categoryData with
     | None | Some [] => ret []
     | Some (category0 :: _) =>
         let categoryId := CategoryId.id category0 in
         '(exercises, error) <-
            await (ExercisesByCategory categoryId)
                  (exercises_by_category supabaseServer categoryId) ;;
         match error, exercises with
         | None, Some rows =>
             ret (map (fun exercise =>
               {| ExerciseWithLabels.id := Exercise.id exercise;
                  ExerciseWithLabels.name := Exercise.name exercise;
                  ExerciseWithLabels.image :=
                    orElse (Exercise.image_url exercise) placeholderImage;
                  ExerciseWithLabels.description :=
                    Exercise.ex_description exercise;
                  ExerciseWithLabels.duration :=
                    orNull (Exercise.duration exercise);
                  ExerciseWithLabels.reps := orNull (Exercise.reps exercise);
                  ExerciseWithLabels.labels := [];
                  ExerciseWithLabels.categories := Some [] |}) rows)
         | _, _ => ret []
         end
     end)
    (fun _ => ret []).

(** The lookup objects built with [reduce]: an entry written later
    hides an earlier one with the same key. *)
Definition mapOfRows {A : Type} (key : A -> Z) (value : A -> string)
    (rows : list A) : list (Z * string) :=
  fold_left (fun acc item => (key item, value item) :: acc) rows [].

(** [map[k]], [undefined] when the key is absent. *)
Definition mapGet (m : list (Z * string)) (k : Z) : option string :=
  option_map snd (find (fun kv => (fst kv =? k)%Z) m).

Definition getExerciseGroups (supabaseServer : Supabase)
    : Run (list ExerciseGroup.t) :=
  tryCatch
    ('(data, error) <-
        await RpcGetExerciseGroupsWithDetails
              (rpc_get_exercise_groups_with_details supabaseServer) ;;
     match error with
     | Some _ =>
         '(fallbackData, fallbackError) <-
            await ExerciseGroupsByName
                  (exercise_groups_by_name supabaseServer) ;;
         match fallbackError, fallbackData with
         | None, Some fallbackRows =>
             let groupIds := map GroupRow.id fallbackRows in
             '(firData, _) <-
                await ExerciseFirAll (exercise_fir_all supabaseServer) ;;
             '(bodySectionData, _) <-
                await ExerciseBodySectionAll
                      (exercise_body_section_all supabaseServer) ;;
             let firMap :=
               mapOfRows Fir.id Fir.name
                 (match firData with Some l => l | None => [] end) in
             let bodySectionMap :=
               mapOfRows BodySection.id BodySection.body_section
                 (match bodySectionData with Some l => l | None => [] end) in
             ret (map (fun group =>
               {| ExerciseGroup.id := GroupRow.id group;
                  ExerciseGroup.name := GroupRow.name group;
                  ExerciseGroup.description := None;
                  ExerciseGroup.image_url := GroupRow.image_url group;
                  ExerciseGroup.body_sec := GroupRow.body_sec group;
                  ExerciseGroup.body_section_name :=
                    if negb (GroupRow.body_sec group =? 0)%Z
                    then orNull (mapGet bodySectionMap (GroupRow.body_sec group))
                    else None;
                  ExerciseGroup.fir_level := GroupRow.fir_level group;
                  ExerciseGroup.fir_level_name :=
                    match GroupRow.fir_level group with
                    | Some level =>
                        if negb (level =? 0)%Z
                        then orNull (mapGet firMap level) else None
                    | None => None
                    end;
                  ExerciseGroup.category_id := None |}) fallbackRows)
         | _, _ => ret []
         end
     | None =>
         ret (map (fun group =>
           {| ExerciseGroup.id := RpcGroup.id group;
              ExerciseGroup.name := RpcGroup.name group;
              ExerciseGroup.description := None;
              ExerciseGroup.image_url := RpcGroup.image_url group;
              ExerciseGroup.body_sec := RpcGroup.body_sec group;
              ExerciseGroup.body_section_name :=
                orNull (RpcGroup.body_section group);
              ExerciseGroup.fir_level := RpcGroup.fir_level group;
              ExerciseGroup.fir_level_name := orNull (RpcGroup.fir_name group);
              ExerciseGroup.category_id := None |})
           (match data with Some l => l | None => [] end))
     end)
    (fun _ => ret []).

(** The categories of one exercise in [getExercisesByGroup]. *)
Definition groupCategories (js : Builtins) (bodySection : option string)
    (firLevel : string) (exerciseName : string) : list string :=
  (if truthyString bodySection
   then match bodySection with
        | Some s => [capitalize js s]
        | None => []
        end
   else
     let defaultCategories := getDefaultCategories exerciseName in
     match find (fun cat => existsb (String.eqb cat)
                              ["Upper"; "Middle"; "Lower"])
                defaultCategories with
     | Some bodyRegion => [bodyRegion]
     | None => []
     end)
  ++ ["FIR: " ++ firLevel].

Definition getExercisesByGroup (js : Builtins) (supabaseServer : Supabase)
    (groupId : Z) : Run (list ExerciseWithLabels.t) :=
  tryCatch
    ('(group, groupError) <-
        await (ExerciseGroupDetail groupId)
              (exercise_group_detail supabaseServer groupId) ;;
     match groupError, group with
     | None, Some group =>
         '(exercisesByGroup, groupError2) <-
            await (ExercisesByGroup (toString js groupId))
                  (exercises_by_group supabaseServer (toString js groupId)) ;;
         match groupError2, exercisesByGroup with
         | None, Some (row0 :: rows) =>
             let bodySection0 :=
               match GroupDetail.exercise_body_section group with
               | JArray joined =>
                   orNull (option_map BodySection.body_section (hd_error joined))
               | JObject joined =>
                   orNull (Some (BodySection.body_section joined))
               | JMissing | JScalar => None
               end in
             let firLevel0 :=
               match GroupDetail.exercise_fir group with
               | JArray joined =>
                   orElse (option_map Fir.name (hd_error joined)) "Low"
               | JObject joined => orElse (Some (Fir.name joined)) "Low"
               | JMissing | JScalar => "Low"
               end in
             bodySection <-
               (if negb (truthyString bodySection0)
                   && negb (GroupDetail.body_sec group =? 0)%Z
                then
                  '(bodySectionData, _) <-
                     await (BodySectionById (GroupDetail.body_sec group))
                           (body_section_by_id supabaseServer
                              (GroupDetail.body_sec group)) ;;
                  ret (match bodySectionData with
                          | Some found =>
                              Some (BodySectionName.body_section found)
                          | None => bodySection0
                          end)
                else ret bodySection0) ;;
             firLevel <-
               (match GroupDetail.fir_level group with
                | Some level =>
                    if (firLevel0 =? "Low") && negb (level =? 0)%Z
                    then
                      '(firData, _) <-
                         await (FirById level) (fir_by_id supabaseServer level) ;;
                      ret (match firData with
                              | Some found => FirName.name found
                              | None => firLevel0
                              end)
                    else ret firLevel0
                | None => ret firLevel0
                end) ;;
             ret (map (fun exercise =>
               {| ExerciseWithLabels.id := Exercise.id exercise;
                  ExerciseWithLabels.name := Exercise.name exercise;
                  ExerciseWithLabels.image :=
                    orElse (Exercise.image_url exercise) placeholderImage;
                  ExerciseWithLabels.description :=
                    Exercise.ex_description exercise;
                  ExerciseWithLabels.duration :=
                    orNull (Exercise.duration exercise);
                  ExerciseWithLabels.reps := orNull (Exercise.reps exercise);
                  ExerciseWithLabels.labels := [];
                  ExerciseWithLabels.categories :=
                    Some (groupCategories js bodySection firLevel
                            (Exercise.name exercise)) |}) (row0 :: rows))
         | _, _ => ret []
         end
     | _, _ => ret []
     end)
    (fun _ => ret []).

Definition fallbackBodySections : list string := ["lower"; "middle"; "upper"].

Definition getBodySections (supabaseServer : Supabase) : Run (list string) :=
  tryCatch
    ('(data, error) <-
        await BodySectionsOrdered (body_sections_ordered supabaseServer) ;;
     match error with
     | Some _ => ret fallbackBodySections
     | None =>
       match data with
       | None | Some [] => ret fallbackBodySections
       | Some rows => ret (map BodySectionName.body_section rows)
       end
     end)
    (fun _ => ret fallbackBodySections).

(** *** What a run met *)

Definition isErrored (ev : Event) : bool :=
  match snd ev with
  | Errored => true
  | _ => false
  end.

Definition isThrew (ev : Event) : bool :=
  match snd ev with
  | Threw => true
  | _ => false
  end.

(** Some awaited query reported an error. *)
Definition anyErrored (log : list Event) : bool := existsb isErrored log.

(** Some awaited query threw. *)
Definition anyThrew (log : list Event) : bool := existsb isThrew log.

(** A query selected by [p] reported an error. *)
Definition erroredOn (p : Query -> bool) (log : list Event) : bool :=
  existsb (fun ev => p (fst ev) && isErrored ev) log.

Definition isExercisesLimit10 (q : Query) : bool :=
  match q with
  | ExercisesLimit10 => true
  | _ => false
  end.

Definition isRpc (q : Query) : bool :=
  match q with
  | RpcGetExerciseGroupsWithDetails => true
  | _ => false
  end.

Definition isExerciseGroupsByName (q : Query) : bool :=
  match q with
  | ExerciseGroupsByName => true
  | _ => false
  end.

(** The two queries [getExercisesByGroup] cannot do without. *)
Definition isGroupOrItsExercises (q : Query) : bool :=
  match q with
  | ExerciseGroupDetail _ | ExercisesByGroup _ => true
  | _ => false
  end.

(** "On every backing-store error or thrown exception the run returns
    [fallback]." *)
Definition fallsBackTo {A : Type} (fallback : A) (r : Run A) : Prop :=
  anyErrored (issued r) || anyThrew (issued r) = true ->
  completion r = Return fallback.

(** The claim on the seven query actions as it is worded. *)
Definition errorsGiveEmpty (js : Builtins) : Prop :=
  forall (supabaseServer : Supabase) (type : ExerciseType) (n : Z),
    fallsBackTo [] (getWarmupExercises supabaseServer)
    /\ fallsBackTo [] (getStretchExercises supabaseServer)
    /\ fallsBackTo [] (getWorkoutExercises supabaseServer)
    /\ fallsBackTo [] (getExercisesByType supabaseServer type)
    /\ fallsBackTo [] (getExerciseGroups supabaseServer)
    /\ fallsBackTo [] (getExercisesByGroup js supabaseServer n)
    /\ fallsBackTo None (getExerciseById supabaseServer n).

(** The three ways an action can honour a failure. *)
Definition neverThrows {A : Type} (r : Run A) : Prop :=
  exists a, completion r = Return a.

Definition onThrow {A : Type} (fallback : A) (r : Run A) : Prop :=
  anyThrew (issued r) = true -> completion r = Return fallback.

Definition onErrorOf {A : Type} (p : Query -> bool) (fallback : A)
    (r : Run A) : Prop :=
  erroredOn p (issued r) = true -> completion r = Return fallback.

(** *** Stores used as examples *)

(** Every query answers without rows. *)
Definition quietStore : Supabase :=
  {| categories_ilike := fun _ => Success (Some []);
     categories_all := Success (Some []);
     category_ids_ilike := fun _ => Success (Some []);
     exercises_by_category := fun _ => Success (Some []);
     exercises_limit_10 := Success (Some []);
     exercise_by_id := fun _ => Success None;
     rpc_get_exercise_groups_with_details := Success (Some []);
     exercise_groups_by_name := Success (Some []);
     exercise_fir_all := Success (Some []);
     exercise_body_section_all := Success (Some []);
     exercise_group_detail := fun _ => Success None;
     exercises_by_group := fun _ => Success (Some []);
     body_section_by_id := fun _ => Success None;
     fir_by_id := fun _ => Success None;
     body_sections_ordered := Success (Some []) |}.

Definition legsRow : GroupRow.t :=
  {| GroupRow.id := 1; GroupRow.name := "Legs";
     GroupRow.image_url := None; GroupRow.body_sec := 1;
     GroupRow.fir_level := Some 2%Z |}.

(** The procedure is not available; the tables are. *)
Definition rpcDownStore : Supabase :=
  {| categories_ilike := categories_ilike quietStore;
     categories_all := categories_all quietStore;
     category_ids_ilike := category_ids_ilike quietStore;
     exercises_by_category := exercises_by_category quietStore;
     exercises_limit_10 := exercises_limit_10 quietStore;
     exercise_by_id := exercise_by_id quietStore;
     rpc_get_exercise_groups_with_details :=
       Failure {| message := "function not found" |};
     exercise_groups_by_name := Success (Some [legsRow]);
     exercise_fir_all :=
       Success (Some [ {| Fir.id := 2; Fir.name := "Moderate" |} ]);
     exercise_body_section_all :=
       Success (Some [ {| BodySection.id := 1;
                          BodySection.body_section := "lower" |} ]);
     exercise_group_detail := exercise_group_detail quietStore;
     exercises_by_group := exercises_by_group quietStore;
     body_section_by_id := body_section_by_id quietStore;
     fir_by_id := fir_by_id quietStore;
     body_sections_ordered := body_sections_ordered quietStore |}.

(** Nothing answers: every query rejects. *)
Definition offlineStore : Supabase :=
  let down := JsError "fetch failed" in
  {| categories_ilike := fun _ => Rejected down;
     categories_all := Rejected down;
     category_ids_ilike := fun _ => Rejected down;
     exercises_by_category := fun _ => Rejected down;
     exercises_limit_10 := Rejected down;
     exercise_by_id := fun _ => Rejected down;
     rpc_get_exercise_groups_with_details := Rejected down;
     exercise_groups_by_name := Rejected down;
     exercise_fir_all := Rejected down;
     exercise_body_section_all := Rejected down;
     exercise_group_detail := fun _ => Rejected down;
     exercises_by_group := fun _ => Rejected down;
     body_section_by_id := fun _ => Rejected down;
     fir_by_id := fun _ => Rejected down;
     body_sections_ordered := Rejected down |}.

(** The workout category exists but holds no exercise, and the query
    for any ten exercises reports an error. *)
Definition fallbackDownStore : Supabase :=
  {| categories_ilike :=
       fun _ => Success (Some [ {| Category.id := "c3";
                                   Category.name := "Workout" |} ]);
     categories_all := categories_all quietStore;
     category_ids_ilike := category_ids_ilike quietStore;
     exercises_by_category := fun _ => Success (Some []);
     exercises_limit_10 := Failure {| message := "permission denied" |};
     exercise_by_id := exercise_by_id quietStore;
     rpc_get_exercise_groups_with_details :=
       rpc_get_exercise_groups_with_details quietStore;
     exercise_groups_by_name := exercise_groups_by_name quietStore;
     exercise_fir_all := exercise_fir_all quietStore;
     exercise_body_section_all := exercise_body_section_all quietStore;
     exercise_group_detail := exercise_group_detail quietStore;
     exercises_by_group := exercises_by_group quietStore;
     body_section_by_id := body_section_by_id quietStore;
     fir_by_id := fir_by_id quietStore;
     body_sections_ordered := body_sections_ordered quietStore |}.

(** The table of body sections as the application ships it. *)
Definition sectionsStore : Supabase :=
  {| categories_ilike := categories_ilike quietStore;
     categories_all := categories_all quietStore;
     category_ids_ilike := category_ids_ilike quietStore;
     exercises_by_category := exercises_by_category quietStore;
     exercises_limit_10 := exercises_limit_10 quietStore;
     exercise_by_id := exercise_by_id quietStore;
     rpc_get_exercise_groups_with_details :=
       rpc_get_exercise_groups_with_details quietStore;
     exercise_groups_by_name := exercise_groups_by_name quietStore;
     exercise_fir_all := exercise_fir_all quietStore;
     exercise_body_section_all := exercise_body_section_all quietStore;
     exercise_group_detail := exercise_group_detail quietStore;
     exercises_by_group := exercises_by_group quietStore;
     body_section_by_id := body_section_by_id quietStore;
     fir_by_id := fir_by_id quietStore;
     body_sections_ordered :=
       Success (Some [ {| BodySectionName.body_section := "upper" |};
                       {| BodySectionName.body_section := "core" |} ]) |}.

(** *** Statements on what a run returns and asks *)

(** The run returns a list, and every entry of it satisfies [P]. *)
Definition returnsAll {A : Type} (P : A -> Prop) (r : Run (list A)) : Prop :=
  exists l, completion r = Return l /\ Forall P l.

(** No query is awaited after one that threw. *)
Fixpoint stopsAtThrow (log : list Event) : bool :=
  match log with
  | [] => true
  | ev :: rest =>
      match rest with
      | [] => true
      | _ :: _ => negb (isThrew ev) && stopsAtThrow rest
      end
  end.

(** The queries of a run, in the order they were awaited. *)
Definition asked {A : Type} (r : Run A) : list Query := map fst (issued r).

Definition nonEmpty (o : option string) : Prop :=
  exists s, o = Some s /\ s <> "".

(** The three body regions the application knows. *)
Definition bodyRegions : list string := ["Upper"; "Middle"; "Lower"].

Definition pushUp : Exercise.t :=
  {| Exercise.id := 7; Exercise.name := "Push Up Press";
     Exercise.image_url := Some "/img/push-up.png";
     Exercise.ex_description := None;
     Exercise.duration := Some ""; Exercise.reps := Some "12" |}.

Definition plank : Exercise.t :=
  {| Exercise.id := 9; Exercise.name := "Plank";
     Exercise.image_url := Some "plank.png";
     Exercise.ex_description := Some "Hold the position";
     Exercise.duration := Some "45"; Exercise.reps := None |}.

(** Every category is found and holds the same two exercises; the
    group 4 holds them too, and its section and level come with it. *)
Definition stockedStore : Supabase :=
  {| categories_ilike :=
       fun _ => Success (Some [ {| Category.id := "c1";
                                   Category.name := "Warmup" |};
                                {| Category.id := "c2";
                                   Category.name := "Warmup (old)" |} ]);
     categories_all := categories_all quietStore;
     category_ids_ilike :=
       fun _ => Success (Some [ {| CategoryId.id := "c1" |} ]);
     exercises_by_category := fun _ => Success (Some [pushUp; plank]);
     exercises_limit_10 := exercises_limit_10 quietStore;
     exercise_by_id := fun _ => Success (Some pushUp);
     rpc_get_exercise_groups_with_details :=
       rpc_get_exercise_groups_with_details quietStore;
     exercise_groups_by_name := exercise_groups_by_name quietStore;
     exercise_fir_all := exercise_fir_all quietStore;
     exercise_body_section_all := exercise_body_section_all quietStore;
     exercise_group_detail :=
       fun _ =>
         Success (Some
           {| GroupDetail.body_sec := 3;
              GroupDetail.fir_level := Some 2%Z;
              GroupDetail.exercise_body_section :=
                JObject {| BodySection.id := 3;
                           BodySection.body_section := "upper" |};
              GroupDetail.exercise_fir :=
                JArray [ {| Fir.id := 2; Fir.name := "High" |} ] |});
     exercises_by_group := fun _ => Success (Some [pushUp; plank]);
     body_section_by_id := body_section_by_id quietStore;
     fir_by_id := fir_by_id quietStore;
     body_sections_ordered := body_sections_ordered quietStore |}.

(** The run stops at a throw, starts with the query [first] and awaits
    [most] queries at most. *)
Definition keepsTo {A : Type} (r : Run A) (first : Query) (most : nat)
    : Prop :=
  stopsAtThrow (issued r) = true
  /\ hd_error (asked r) = Some first
  /\ List.length (issued r) <= most.

(** The categories are at most one body region followed by
    [FIR: Low]. *)
Definition hasDefaultCategories (x : ExerciseWithLabels.t) : Prop :=
  exists region,
    ExerciseWithLabels.categories x = Some (region ++ ["FIR: Low"])%list
    /\ (region = [] \/ exists r, region = [r] /\ In r bodyRegions).

End Actions.

(* ================================================================== *)
(** ** Properties of the tracker *)
(* ================================================================== *)

Module TrackerProofs.
Import RecordContext.

(** *** Lookups in updated lists *)

Section Lookup.

Variable d : string.

Lemma findDay_map_same_date (f : WorkoutDay -> WorkoutDay) (d' : string)
    (wds : list WorkoutDay) :
  (forall w, date (f w) = date w) ->
  findDay d' (map f wds) = option_map f (findDay d' wds).
Proof.
  intros Hf. unfold findDay.
  induction wds as [|w rest IH]; simpl; [reflexivity|].
  rewrite Hf. destruct (date w =? d'); [reflexivity | exact IH].
Qed.

Lemma set_flag_keeps_date (c : bool) (w : WorkoutDay) :
  date (if date w =? d then with_completed w c else w) = date w.
Proof. destruct (date w =? d); reflexivity. Qed.

Lemma set_flag_keeps_key (c : bool) (w : WorkoutDay) :
  key (if date w =? d then with_completed w c else w) = key w.
Proof. destruct (date w =? d); reflexivity. Qed.

Lemma findDay_app (d' : string) (wds : list WorkoutDay) (w : WorkoutDay) :
  findDay d' (wds ++ [w]) =
  match findDay d' wds with
  | Some found => Some found
  | None => if date w =? d' then Some w else None
  end.
Proof.
  unfold findDay. induction wds as [|x rest IH]; simpl.
  - reflexivity.
  - destruct (date x =? d'); [reflexivity | exact IH].
Qed.

Lemma findDay_none_dates (wds : list WorkoutDay) :
  findDay d wds = None -> forall w, In w wds -> date w <> d.
Proof.
  unfold findDay. intros Hnone w Hin Heq.
  apply (find_none _ _ Hnone) in Hin.
  apply String.eqb_neq in Hin. contradiction.
Qed.

Lemma filter_absent (wds : list WorkoutDay) :
  findDay d wds = None ->
  filter (fun day => negb (date day =? d)) wds = wds.
Proof.
  unfold findDay.
  induction wds as [|w rest IH]; simpl; [reflexivity|].
  destruct (date w =? d); simpl; [discriminate|].
  intros H. now rewrite IH.
Qed.

Lemma filter_other_dates (wds : list WorkoutDay) :
  findDay d wds = None ->
  filter (fun day => date day =? d) wds = [].
Proof.
  unfold findDay.
  induction wds as [|w rest IH]; simpl; [reflexivity|].
  destruct (date w =? d); simpl; [discriminate | exact IH].
Qed.

Lemma findDay_filter_other (d' : string) (wds : list WorkoutDay) :
  d' <> d ->
  findDay d' (filter (fun day => negb (date day =? d)) wds) = findDay d' wds.
Proof.
  intros Hne. unfold findDay.
  induction wds as [|w rest IH]; simpl; [reflexivity|].
  destruct (date w =? d) eqn:Ed; simpl.
  - apply String.eqb_eq in Ed.
    destruct (date w =? d') eqn:Ed'; [|exact IH].
    apply String.eqb_eq in Ed'. congruence.
  - destruct (date w =? d'); [reflexivity | exact IH].
Qed.

(** After the filter of the rollback no record is left on [d]. *)
Lemma findDay_filter_same (wds : list WorkoutDay) :
  findDay d (filter (fun day => negb (date day =? d)) wds) = None.
Proof.
  unfold findDay.
  induction wds as [|w rest IH]; simpl; [reflexivity|].
  destruct (date w =? d) eqn:Ed; simpl; [exact IH|].
  now rewrite Ed.
Qed.

(** Setting the flag of every record on [d] and then setting it again
    is the same as setting it once to the last value. *)
Lemma set_flag_twice (c1 c2 : bool) (wds : list WorkoutDay) :
  map (fun day => if date day =? d then with_completed day c2 else day)
      (map (fun day => if date day =? d then with_completed day c1 else day)
           wds)
  = map (fun day => if date day =? d then with_completed day c2 else day) wds.
Proof.
  rewrite map_map. apply map_ext. intros w.
  destruct (date w =? d) eqn:E; simpl; [|now rewrite E].
  now rewrite E.
Qed.

(** Setting the flag to the value of the record that [findDay] returns
    changes nothing when that record is the only one on [d]. *)
Lemma set_flag_same (w : WorkoutDay) (wds : list WorkoutDay) :
  (forall x, In x wds -> date x = d -> x = w) ->
  map (fun day => if date day =? d then with_completed day (completed w)
                  else day) wds = wds.
Proof.
  intros Honly. rewrite <- (map_id wds) at 2.
  apply map_ext_in. intros x Hin.
  destruct (date x =? d) eqn:E; [|reflexivity].
  apply String.eqb_eq in E. rewrite <- (Honly x Hin E).
  destruct x; reflexivity.
Qed.

(** The lookup of [d] after the flag of its records has been set. *)
Lemma findDay_set_flag_same (c : bool) (wds : list WorkoutDay) :
  findDay d (map (fun day => if date day =? d then with_completed day c
                             else day) wds)
  = option_map (fun w => with_completed w c) (findDay d wds).
Proof.
  rewrite findDay_map_same_date by apply set_flag_keeps_date.
  destruct (findDay d wds) as [x|] eqn:Hx; [|reflexivity].
  simpl. unfold findDay in Hx. apply find_some in Hx.
  destruct Hx as [_ Hd]. now rewrite Hd.
Qed.

End Lookup.

Lemma findDay_found_date (d : string) (wds : list WorkoutDay) (w : WorkoutDay) :
  findDay d wds = Some w -> In w wds /\ date w = d.
Proof.
  unfold findDay. intros H. apply find_some in H.
  destruct H as [Hin Heq]. apply String.eqb_eq in Heq. now split.
Qed.

Lemma with_completed_same (w : WorkoutDay) : with_completed w (completed w) = w.
Proof. destruct w; reflexivity. Qed.

Lemma findDay_set_flag_other (d d' : string) (c : bool)
    (wds : list WorkoutDay) :
  d' <> d ->
  findDay d' (map (fun day => if date day =? d then with_completed day c
                              else day) wds)
  = findDay d' wds.
Proof.
  intros Hne.
  rewrite findDay_map_same_date by apply set_flag_keeps_date.
  destruct (findDay d' wds) as [x|] eqn:Hx; [|reflexivity].
  simpl. destruct (findDay_found_date _ _ _ Hx) as [_ Hxd].
  destruct (date x =? d) eqn:E; [|reflexivity].
  apply String.eqb_eq in E. congruence.
Qed.

(** *** The shape of a toggle *)

Lemma toggle_unfold (u : User) (rendered : list WorkoutDay) (d : string)
    (o : ActionOutcome) (st : TrackerState) :
  fst (toggleWorkoutDay (Some u) rendered d o st)
  = settle (findDay d rendered) d o (optimisticState u rendered d st).
Proof. reflexivity. Qed.

Lemma settle_failed (existing : option WorkoutDay) (d : string)
    (o : ActionOutcome) (st : TrackerState) :
  writeFailed o = true ->
  settle existing d o st = setWorkoutDays (revertUpdate existing d) st.
Proof.
  destruct o as [r|]; simpl; [|reflexivity].
  intros ->. reflexivity.
Qed.

Lemma settle_succeeded (existing : option WorkoutDay) (d : string)
    (o : ActionOutcome) (st : TrackerState) :
  writeFailed o = false -> settle existing d o st = st.
Proof.
  destruct o as [r|]; simpl; [|discriminate].
  intros ->. reflexivity.
Qed.

Lemma successful_toggle_list (u : User) (rendered : list WorkoutDay)
    (d : string) (o : ActionOutcome) (st : TrackerState) :
  writeFailed o = false ->
  fst (toggleWorkoutDay (Some u) rendered d o st)
  = optimisticState u rendered d st.
Proof.
  intros Hok. rewrite toggle_unfold. now apply settle_succeeded.
Qed.

Lemma state_eq (st st' : TrackerState) :
  workoutDays st' = workoutDays st ->
  isLoading st' = isLoading st ->
  error st' = error st ->
  st' = st.
Proof. destruct st, st'; simpl; intros; subst; reflexivity. Qed.

(** The list after a toggle whose write failed, when the context value
    showed a record on the date: every record on the date carries the
    flag of that record. *)
Lemma failed_toggle_existing (u : User) (rendered : list WorkoutDay)
    (d : string) (o : ActionOutcome) (st : TrackerState) (w : WorkoutDay) :
  writeFailed o = true ->
  findDay d rendered = Some w ->
  workoutDays (fst (toggleWorkoutDay (Some u) rendered d o st))
  = map (fun day => if date day =? d then with_completed day (completed w)
                    else day) (workoutDays st).
Proof.
  intros Hfail Hfind. rewrite toggle_unfold, (settle_failed _ _ _ _ Hfail).
  unfold optimisticState. rewrite Hfind. simpl.
  apply set_flag_twice.
Qed.

(** The same when the context value showed none: the records on the
    date are gone, the one appended and any other. *)
Lemma failed_toggle_absent (u : User) (rendered : list WorkoutDay)
    (d : string) (o : ActionOutcome) (st : TrackerState) :
  writeFailed o = true ->
  findDay d rendered = None ->
  workoutDays (fst (toggleWorkoutDay (Some u) rendered d o st))
  = filter (fun day => negb (date day =? d)) (workoutDays st).
Proof.
  intros Hfail Hfind. rewrite toggle_unfold, (settle_failed _ _ _ _ Hfail).
  unfold optimisticState. rewrite Hfind. simpl.
  rewrite filter_app. simpl. rewrite String.eqb_refl. simpl.
  apply app_nil_r.
Qed.

Lemma toggle_keeps_flags (user : option User) (rendered : list WorkoutDay)
    (d : string) (o : ActionOutcome) (st : TrackerState) :
  isLoading (fst (toggleWorkoutDay user rendered d o st)) = isLoading st
  /\ error (fst (toggleWorkoutDay user rendered d o st)) = error st.
Proof.
  destruct user as [u|]; [|split; reflexivity].
  destruct o as [[[|]]|]; split; reflexivity.
Qed.

(** The record the lookup finds after the optimistic update. *)
Lemma findDay_optimistic (u : User) (rendered : list WorkoutDay) (d : string)
    (st : TrackerState) :
  findDay d (workoutDays (optimisticState u rendered d st))
  = match findDay d rendered with
    | Some w =>
        option_map (fun x => with_completed x (negb (completed w)))
          (findDay d (workoutDays st))
    | None =>
        match findDay d (workoutDays st) with
        | Some x => Some x
        | None => Some {| user_id := id u; date := d; completed := true |}
        end
    end.
Proof.
  unfold optimisticState.
  destruct (findDay d rendered) as [w|]; simpl.
  - apply findDay_set_flag_same.
  - rewrite findDay_app. simpl. now rewrite String.eqb_refl.
Qed.

(** *** Toggles leave other dates alone *)

Lemma optimistic_other_date (u : User) (rendered : list WorkoutDay)
    (d d' : string) (st : TrackerState) :
  d' <> d ->
  findDay d' (workoutDays (optimisticState u rendered d st))
  = findDay d' (workoutDays st).
Proof.
  intros Hne. unfold optimisticState.
  destruct (findDay d rendered) as [w|]; simpl.
  - now apply findDay_set_flag_other.
  - rewrite findDay_app. simpl.
    destruct (findDay d' (workoutDays st)); [reflexivity|].
    destruct (d =? d') eqn:E; [|reflexivity].
    apply String.eqb_eq in E. congruence.
Qed.

Lemma revert_other_date (existing : option WorkoutDay) (d d' : string)
    (wds : list WorkoutDay) :
  d' <> d ->
  findDay d' (revertUpdate existing d wds) = findDay d' wds.
Proof.
  intros Hne. destruct existing as [w|]; simpl.
  - now apply findDay_set_flag_other.
  - now apply findDay_filter_other.
Qed.

Lemma settle_other_date (existing : option WorkoutDay) (d d' : string)
    (o : ActionOutcome) (st : TrackerState) :
  d' <> d ->
  findDay d' (workoutDays (settle existing d o st))
  = findDay d' (workoutDays st).
Proof.
  intros Hne. destruct (writeFailed o) eqn:Ho.
  - rewrite (settle_failed _ _ _ _ Ho). simpl. now apply revert_other_date.
  - now rewrite (settle_succeeded _ _ _ _ Ho).
Qed.

Lemma toggle_other_date (user : option User) (rendered : list WorkoutDay)
    (d d' : string) (o : ActionOutcome) (st : TrackerState) :
  d' <> d ->
  findDay d' (workoutDays (fst (toggleWorkoutDay user rendered d o st)))
  = findDay d' (workoutDays st).
Proof.
  intros Hne. destruct user as [u|]; [|reflexivity].
  rewrite toggle_unfold, settle_other_date by assumption.
  now apply optimistic_other_date.
Qed.

(** *** The lookup, two ways *)

Lemma findDay_filter (d : string) (wds : list WorkoutDay) :
  findDay d wds = hd_error (filter (fun w => date w =? d) wds).
Proof.
  unfold findDay. induction wds as [|w rest IH]; simpl; [reflexivity|].
  destruct (date w =? d); [reflexivity | exact IH].
Qed.

Lemma isWorkoutCompleted_spec (st : TrackerState) (d : string) :
  isWorkoutCompleted st d = specLookup (workoutDays st) d.
Proof.
  unfold isWorkoutCompleted, specLookup. rewrite findDay_filter.
  destruct (filter (fun w => date w =? d) (workoutDays st)) as [|w rest];
    simpl; [reflexivity|].
  destruct (completed w); reflexivity.
Qed.

Lemma isWorkoutCompleted_found (st : TrackerState) (d : string) :
  isWorkoutCompleted st d
  = match findDay d (workoutDays st) with
    | Some w => completed w
    | None => false
    end.
Proof.
  unfold isWorkoutCompleted.
  destruct (findDay d (workoutDays st)) as [w|]; simpl; [|reflexivity].
  destruct (completed w); reflexivity.
Qed.

(** The record found is the first of the list on the date. *)
Lemma findDay_first (d : string) (pre post : list WorkoutDay)
    (w : WorkoutDay) :
  (forall x, In x pre -> date x <> d) ->
  date w = d ->
  findDay d (pre ++ w :: post) = Some w.
Proof.
  intros Hpre Hw. unfold findDay.
  induction pre as [|x rest IH]; simpl.
  - apply String.eqb_eq in Hw. now rewrite Hw.
  - assert (Hx : date x <> d) by (apply Hpre; now left).
    apply String.eqb_neq in Hx. rewrite Hx.
    apply IH. intros y Hy. apply Hpre. now right.
Qed.

Lemma findDay_absent (d : string) (wds : list WorkoutDay) :
  (forall w, In w wds -> date w <> d) -> findDay d wds = None.
Proof.
  intros Hall. unfold findDay.
  induction wds as [|x rest IH]; simpl; [reflexivity|].
  assert (Hx : date x <> d) by (apply Hall; now left).
  apply String.eqb_neq in Hx. rewrite Hx.
  apply IH. intros y Hy. apply Hall. now right.
Qed.

(** *** Rollback *)

(** After a failed write the lookups are what they were, for a call
    made on a context value that shows the current record of the
    date. *)
Lemma failed_toggle_lookups (u : User) (rendered : list WorkoutDay)
    (d : string) (o : ActionOutcome) (st : TrackerState) :
  writeFailed o = true ->
  showsCurrent rendered d st ->
  findDay d (workoutDays (fst (toggleWorkoutDay (Some u) rendered d o st)))
  = findDay d (workoutDays st)
  /\ (findDay d (workoutDays st) = None ->
      workoutDays (fst (toggleWorkoutDay (Some u) rendered d o st))
      = workoutDays st).
Proof.
  unfold showsCurrent. intros Hfail Hshows.
  destruct (findDay d rendered) as [w|] eqn:Hfind.
  - rewrite (failed_toggle_existing u rendered d o st w Hfail Hfind).
    split.
    + rewrite findDay_set_flag_same, <- Hshows. simpl.
      now rewrite with_completed_same.
    + rewrite <- Hshows. discriminate.
  - rewrite (failed_toggle_absent u rendered d o st Hfail Hfind).
    symmetry in Hshows. rewrite (filter_absent d _ Hshows).
    now split.
Qed.

(** C1 as stated does not hold for every context value.  On the value
    rendered when 2024-01-05 was completed, a first call whose write
    succeeds leaves the day not completed; a second call on the same
    value, whose write is refused, reverts to what that value shows and
    leaves the day completed, which is not what the list held before
    the second call.  Nor does it hold when the list is replaced while
    the write is awaited: the record is then not put back. *)
Lemma rollback_restores_what_the_context_showed :
  workoutDays
    (fst (toggleWorkoutDay (Some u1) (workoutDays jan5Done) "2024-01-05"
            writeOk jan5Done))
  = [ {| user_id := "u1"; date := "2024-01-05"; completed := false |} ]
  /\ workoutDays
       (fst (toggleWorkoutDay (Some u1) (workoutDays jan5Done) "2024-01-05"
               writeRefused
               (fst (toggleWorkoutDay (Some u1) (workoutDays jan5Done)
                       "2024-01-05" writeOk jan5Done))))
     = [ {| user_id := "u1"; date := "2024-01-05"; completed := true |} ]
  /\ workoutDays
       (steps [ Start u1 (workoutDays jan5Done) "2024-01-05";
                Changed (Some u1) DELETE (ReadResolves []);
                Settle (Some jan5) "2024-01-05" writeRefused ] jan5Done)
     = []
  /\ ~ failureRestoresRecord.
Proof.
  repeat split.
  intros Hclaim.
  specialize (Hclaim u1 (workoutDays jan5Done) "2024-01-05" writeRefused
                (fst (toggleWorkoutDay (Some u1) (workoutDays jan5Done)
                        "2024-01-05" writeOk jan5Done)) eq_refl).
  discriminate Hclaim.
Qed.

(** C1, amended.  When the call is made on a context value that shows,
    for the date, the record the list holds at that time, and nothing
    else updates the list while the write is awaited, a write that
    reports [success:false] or throws leaves the record of the date as
    it was before the toggle: the same record with its prior
    [completed] value if there was one, and no record if there was
    none.  In the second case the whole state is the state before the
    toggle, and so it is whenever the date has at most one record.
    Lookups of other dates, the loading flag and the error message are
    not affected either. *)
Theorem toggle_failure_restores_record (u : User)
    (rendered : list WorkoutDay) (d : string) (o : ActionOutcome)
    (st : TrackerState) :
  writeFailed o = true ->
  showsCurrent rendered d st ->
  let st' := fst (toggleWorkoutDay (Some u) rendered d o st) in
  findDay d (workoutDays st') = findDay d (workoutDays st)
  /\ (findDay d (workoutDays st) = None -> st' = st)
  /\ (atMostOneOn d (workoutDays st) -> st' = st)
  /\ (forall d', d' <> d ->
        findDay d' (workoutDays st') = findDay d' (workoutDays st))
  /\ isLoading st' = isLoading st
  /\ error st' = error st.
Proof.
  intros Hfail Hshows st'.
  destruct (toggle_keeps_flags (Some u) rendered d o st) as [Hload Herr].
  destruct (failed_toggle_lookups u rendered d o st Hfail Hshows)
    as [Hsame Habsent].
  repeat split; try assumption.
  - intros Hnone. apply state_eq; try assumption. now apply Habsent.
  - intros Hone. apply state_eq; try assumption.
    destruct (findDay d (workoutDays st)) as [w|] eqn:Hfind.
    + unfold st'. unfold showsCurrent in Hshows. rewrite Hfind in Hshows.
      rewrite (failed_toggle_existing u rendered d o st w Hfail Hshows).
      apply set_flag_same.
      destruct (findDay_found_date _ _ _ Hfind) as [Hin Hd].
      intros x Hx Hxd. now apply Hone.
    + now apply Habsent.
  - intros d' Hne. now apply toggle_other_date.
Qed.

Lemma toggle_failure_restores_record_witness :
  fst (toggleWorkoutDay (Some u1) (workoutDays twoDays) "2024-01-06"
         writeRefused twoDays)
  = twoDays.
Proof.
  refine (proj1 (proj2 (proj2
            (toggle_failure_restores_record u1 (workoutDays twoDays)
               "2024-01-06" writeRefused twoDays eq_refl eq_refl))) _).
  intros x y Hx Hy Hdx Hdy. simpl in Hx, Hy.
  destruct Hx as [<- | [<- | []]]; destruct Hy as [<- | [<- | []]];
    try reflexivity; discriminate.
Defined.

(** With two records on the date the revert gives both the flag of
    the first: the lookup is restored, the second record is not. *)
Example failed_toggle_two_records_on_date :
  workoutDays
    (fst (toggleWorkoutDay (Some u1)
            [ {| user_id := "u1"; date := "2024-01-05"; completed := true |};
              {| user_id := "u2"; date := "2024-01-05"; completed := false |} ]
            "2024-01-05" writeRefused
            {| workoutDays :=
                 [ {| user_id := "u1"; date := "2024-01-05";
                      completed := true |};
                   {| user_id := "u2"; date := "2024-01-05";
                      completed := false |} ];
               isLoading := false; error := None |}))
  = [ {| user_id := "u1"; date := "2024-01-05"; completed := true |};
      {| user_id := "u2"; date := "2024-01-05"; completed := true |} ].
Proof. reflexivity. Qed.

(** *** First toggle *)

(** C2 as stated does not hold for every context value.  The list has
    become empty through a change notification; on the context value
    rendered before, which still shows a record for the date, the call
    updates records in place, of which there are none, and appends
    nothing. *)
Lemma stale_context_appends_nothing :
  workoutDays
    (fst (onPostgresChanges (Some u1) DELETE (ReadResolves []) jan5Done))
  = []
  /\ workoutDays
       (optimisticState u1 (workoutDays jan5Done) "2024-01-05"
          (fst (onPostgresChanges (Some u1) DELETE (ReadResolves [])
                  jan5Done)))
     = []
  /\ ~ firstToggleAppends.
Proof.
  repeat split.
  intros Hclaim.
  specialize (Hclaim u1 (workoutDays jan5Done) "2024-01-05"
                (fst (onPostgresChanges (Some u1) DELETE (ReadResolves [])
                        jan5Done)) eq_refl).
  discriminate Hclaim.
Qed.

(** C2, amended.  When no record exists for the date, neither in the
    list nor in the context value the call is made on, and a user is
    authenticated, the optimistic update of [toggleWorkoutDay] appends
    one record, with the user's id, the date and [completed = true],
    after the records that were there, which are kept as they are; it
    is the only record on that date, and the write is issued with
    [true]. *)
Theorem first_toggle_appends_one_record (u : User)
    (rendered : list WorkoutDay) (d : string) (st : TrackerState) :
  findDay d (workoutDays st) = None ->
  findDay d rendered = None ->
  let fresh := {| user_id := id u; date := d; completed := true |} in
  workoutDays (optimisticState u rendered d st)
  = (workoutDays st ++ [fresh])%list
  /\ filter (fun day => date day =? d)
            (workoutDays (optimisticState u rendered d st))
     = [fresh]
  /\ filter (fun day => negb (date day =? d))
            (workoutDays (optimisticState u rendered d st))
     = workoutDays st
  /\ toggleWorkoutDay (Some u) rendered d writeOk st
     = ({| workoutDays := (workoutDays st ++ [fresh])%list;
           isLoading := isLoading st;
           error := error st |},
        [ToggleWorkoutDayAction (id u) d true]).
Proof.
  intros Hfind Hshown fresh. unfold toggleWorkoutDay, optimisticState.
  rewrite Hshown. simpl. fold fresh.
  repeat split.
  - rewrite filter_app, (filter_other_dates d _ Hfind). simpl.
    now rewrite String.eqb_refl.
  - rewrite filter_app, (filter_absent d _ Hfind). simpl.
    rewrite String.eqb_refl. simpl. apply app_nil_r.
Qed.

Lemma first_toggle_appends_one_record_witness :
  toggleWorkoutDay (Some u1) (workoutDays twoDays) "2024-01-07" writeOk
    twoDays
  = ({| workoutDays :=
          [ {| user_id := "u1"; date := "2024-01-05"; completed := true |};
            {| user_id := "u1"; date := "2024-01-06"; completed := false |};
            {| user_id := "u1"; date := "2024-01-07"; completed := true |} ];
        isLoading := false;
        error := None |},
     [ToggleWorkoutDayAction "u1" "2024-01-07" true]).
Proof.
  exact (proj2 (proj2 (proj2
           (first_toggle_appends_one_record u1 (workoutDays twoDays)
              "2024-01-07" twoDays eq_refl eq_refl)))).
Defined.

(** *** Two toggles *)

(** C3 as stated does not hold for every way of calling twice.  Two
    calls on one context value both negate what that value shows: where
    it shows the day completed, the day ends not completed; where it
    shows no record, two records are appended. *)
Lemma two_calls_on_one_context_value :
  isWorkoutCompleted jan5Done "2024-01-05" = true
  /\ isWorkoutCompleted
       (fst (toggleWorkoutDay (Some u1) (workoutDays jan5Done) "2024-01-05"
               writeOk
               (fst (toggleWorkoutDay (Some u1) (workoutDays jan5Done)
                       "2024-01-05" writeOk jan5Done))))
       "2024-01-05"
     = false
  /\ workoutDays
       (fst (toggleWorkoutDay (Some u1) [] "2024-01-05" writeOk
               (fst (toggleWorkoutDay (Some u1) [] "2024-01-05" writeOk
                       initialState))))
     = [ {| user_id := "u1"; date := "2024-01-05"; completed := true |};
         {| user_id := "u1"; date := "2024-01-05"; completed := true |} ]
  /\ ~ twoTogglesRestore.
Proof.
  repeat split.
  intros Hclaim.
  specialize (Hclaim (Some u1) (workoutDays jan5Done) (workoutDays jan5Done)
                "2024-01-05" writeOk writeOk jan5Done eq_refl eq_refl).
  discriminate Hclaim.
Qed.

(** C3, amended.  Two toggles of the same date whose writes both
    succeed, each made on a context value that shows, for the date, the
    record the list holds when the call is made (so the second on a
    value rendered after the first), bring the [completed] value of the
    date back to what it was: what [isWorkoutCompleted] answers is
    unchanged, and when the date had a record the lookup finds that
    record again. *)
Theorem toggle_twice_restores_completed (user : option User)
    (rendered1 rendered2 : list WorkoutDay) (d : string)
    (o1 o2 : ActionOutcome) (st : TrackerState) :
  writeFailed o1 = false ->
  writeFailed o2 = false ->
  showsCurrent rendered1 d st ->
  showsCurrent rendered2 d (fst (toggleWorkoutDay user rendered1 d o1 st)) ->
  let st2 :=
    fst (toggleWorkoutDay user rendered2 d o2
           (fst (toggleWorkoutDay user rendered1 d o1 st))) in
  isWorkoutCompleted st2 d = isWorkoutCompleted st d
  /\ (forall w, findDay d (workoutDays st) = Some w ->
                findDay d (workoutDays st2) = Some w).
Proof.
  intros H1 H2. destruct user as [u|]; [|split; [reflexivity | auto]].
  rewrite (successful_toggle_list u rendered1 d o1 st H1).
  rewrite (successful_toggle_list u rendered2 d o2 _ H2).
  unfold showsCurrent. intros Hs1 Hs2. cbv zeta.
  assert (Hfind2 :
    findDay d (workoutDays (optimisticState u rendered2 d
                              (optimisticState u rendered1 d st)))
    = match findDay d (workoutDays st) with
      | Some w => Some w
      | None => Some {| user_id := id u; date := d; completed := false |}
      end).
  { rewrite findDay_optimistic, Hs2, findDay_optimistic, Hs1.
    destruct (findDay d (workoutDays st)) as [w|]; simpl.
    - destruct w as [uid dt c]; unfold with_completed; simpl.
      now rewrite negb_involutive.
    - reflexivity. }
  split.
  - rewrite !isWorkoutCompleted_found, Hfind2.
    destruct (findDay d (workoutDays st)); reflexivity.
  - intros w Hw. rewrite Hfind2, Hw. reflexivity.
Qed.

Lemma toggle_twice_restores_completed_witness :
  isWorkoutCompleted
    (fst (toggleWorkoutDay (Some u1)
            [ {| user_id := "u1"; date := "2024-01-05"; completed := false |} ]
            "2024-01-05" writeOk
            (fst (toggleWorkoutDay (Some u1) (workoutDays jan5Done)
                    "2024-01-05" writeOk jan5Done))))
    "2024-01-05"
  = isWorkoutCompleted jan5Done "2024-01-05".
Proof.
  exact (proj1 (toggle_twice_restores_completed (Some u1)
                  (workoutDays jan5Done)
                  [ {| user_id := "u1"; date := "2024-01-05";
                       completed := false |} ]
                  "2024-01-05" writeOk writeOk jan5Done
                  eq_refl eq_refl eq_refl eq_refl)).
Defined.

(** *** The lookup *)

Lemma run_other_dates (d : string)
    (ops : list (option User * list WorkoutDay * string * ActionOutcome))
    (st : TrackerState) :
  Forall (fun op => snd (fst op) <> d) ops ->
  findDay d (workoutDays (runToggles ops st)) = findDay d (workoutDays st).
Proof.
  revert st. induction ops as [|[[[u rendered] d0] o] rest IH];
    intros st Hall.
  - reflexivity.
  - inversion Hall as [|? ? Hhead Htail]; subst. simpl in Hhead. simpl.
    rewrite IH by assumption.
    apply toggle_other_date. congruence.
Qed.

(** C4. [isWorkoutCompleted] reads the list and nothing else.  When
    no record of the list is on the date it answers [false]; otherwise
    it answers with the [completed] flag of the first record on the
    date, which is the flag of any record on the date when the date has
    one record at most.  It is the lookup the specification words.
    Starting from a state without a record for the date (the initial
    state is one), it stays [false] along every run of toggles of other
    dates, whatever context values they are made on. *)
Theorem isWorkoutCompleted_is_lookup (st : TrackerState) (d : string) :
  isWorkoutCompleted st d = specLookup (workoutDays st) d
  /\ ((forall w, In w (workoutDays st) -> date w <> d) ->
      isWorkoutCompleted st d = false)
  /\ (forall pre w post,
        workoutDays st = (pre ++ w :: post)%list ->
        (forall x, In x pre -> date x <> d) ->
        date w = d ->
        isWorkoutCompleted st d = completed w)
  /\ (forall w,
        atMostOneOn d (workoutDays st) ->
        In w (workoutDays st) -> date w = d ->
        isWorkoutCompleted st d = completed w)
  /\ (isWorkoutCompleted st d = true ->
      exists w, In w (workoutDays st) /\ date w = d /\ completed w = true)
  /\ (forall ops,
        (forall w, In w (workoutDays st) -> date w <> d) ->
        Forall (fun op => snd (fst op) <> d) ops ->
        isWorkoutCompleted (runToggles ops st) d = false)
  /\ isWorkoutCompleted initialState d = false.
Proof.
  repeat apply conj.
  - apply isWorkoutCompleted_spec.
  - intros Hall. rewrite isWorkoutCompleted_found.
    now rewrite (findDay_absent d _ Hall).
  - intros pre w post Hlist Hpre Hw. rewrite isWorkoutCompleted_found, Hlist.
    now rewrite (findDay_first d pre post w Hpre Hw).
  - intros w Hone Hin Hw. rewrite isWorkoutCompleted_found.
    destruct (findDay d (workoutDays st)) as [x|] eqn:Hx.
    + destruct (findDay_found_date _ _ _ Hx) as [Hxin Hxd].
      now rewrite (Hone x w Hxin Hin Hxd Hw).
    + now destruct (findDay_none_dates d _ Hx w Hin).
  - rewrite isWorkoutCompleted_found.
    destruct (findDay d (workoutDays st)) as [x|] eqn:Hx; [|discriminate].
    intros Hc. destruct (findDay_found_date _ _ _ Hx) as [Hxin Hxd].
    now exists x.
  - intros ops Hall Hops. rewrite isWorkoutCompleted_found.
    now rewrite (run_other_dates d ops st Hops), (findDay_absent d _ Hall).
  - reflexivity.
Qed.

Lemma isWorkoutCompleted_is_lookup_witness :
  isWorkoutCompleted twoDays "2024-01-05" = true
  /\ isWorkoutCompleted twoDays "2024-01-06" = false
  /\ isWorkoutCompleted
       (runToggles
          [ (Some u1, workoutDays twoDays, "2024-01-05", writeOk);
            (Some u1, [], "2024-01-06", Rejects) ]
          twoDays) "2024-01-07" = false.
Proof.
  repeat apply conj.
  - refine (proj1 (proj2 (proj2 (isWorkoutCompleted_is_lookup twoDays
                                   "2024-01-05")))
              [] jan5 _ eq_refl _ eq_refl).
    intros x [].
  - refine (proj1 (proj2 (proj2 (isWorkoutCompleted_is_lookup twoDays
                                   "2024-01-06")))
              [jan5]
              {| user_id := "u1"; date := "2024-01-06"; completed := false |}
              [] eq_refl _ eq_refl).
    intros x [<- | []]. discriminate.
  - refine (proj1 (proj2 (proj2 (proj2 (proj2 (proj2
              (isWorkoutCompleted_is_lookup twoDays "2024-01-07"))))))
              _ _ _).
    + intros w [<- | [<- | []]]; discriminate.
    + repeat constructor; simpl; discriminate.
Defined.

(** *** Uniqueness *)

Lemma keys_set_flag (d : string) (c : bool) (wds : list WorkoutDay) :
  map key (map (fun day => if date day =? d then with_completed day c
                           else day) wds)
  = map key wds.
Proof.
  rewrite map_map. apply map_ext. intros w. apply set_flag_keeps_key.
Qed.

Lemma NoDup_snoc {A : Type} (l : list A) (a : A) :
  NoDup l -> ~ In a l -> NoDup (l ++ [a]).
Proof.
  induction l as [|x rest IH]; simpl; intros Hl Ha.
  - constructor; [intros [] | constructor].
  - inversion Hl as [|? ? Hx Hrest]; subst.
    constructor.
    + rewrite in_app_iff. simpl. intros [Hin | [Heq | []]].
      * contradiction.
      * apply Ha. now left.
    + apply IH; [assumption|]. intros Hin. apply Ha. now right.
Qed.

Lemma unique_filter (p : WorkoutDay -> bool) (wds : list WorkoutDay) :
  uniqueDays wds -> uniqueDays (filter p wds).
Proof.
  unfold uniqueDays. induction wds as [|w rest IH]; simpl; intros Hu.
  - constructor.
  - inversion Hu as [|? ? Hnotin Hrest]; subst.
    destruct (p w); simpl; [|now apply IH].
    constructor; [|now apply IH].
    intros Hin. apply Hnotin.
    apply in_map_iff in Hin. destruct Hin as [x [Hk Hx]].
    apply filter_In in Hx. apply in_map_iff. exists x. tauto.
Qed.

Lemma unique_optimistic (u : User) (rendered : list WorkoutDay) (d : string)
    (st : TrackerState) :
  showsPresence rendered d st ->
  uniqueDays (workoutDays st) ->
  uniqueDays (workoutDays (optimisticState u rendered d st)).
Proof.
  unfold uniqueDays, showsPresence, optimisticState. intros Hshows Hu.
  destruct (findDay d rendered) as [w|]; simpl.
  - now rewrite keys_set_flag.
  - rewrite map_app. simpl. apply NoDup_snoc; [exact Hu|].
    intros Hin. apply in_map_iff in Hin. destruct Hin as [x [Hk Hx]].
    apply (findDay_none_dates d _ (Hshows eq_refl) x Hx).
    unfold key in Hk. simpl in Hk. now inversion Hk.
Qed.

Lemma unique_revert (existing : option WorkoutDay) (d : string)
    (wds : list WorkoutDay) :
  uniqueDays wds -> uniqueDays (revertUpdate existing d wds).
Proof.
  destruct existing as [w|]; simpl.
  - unfold uniqueDays. now rewrite keys_set_flag.
  - apply unique_filter.
Qed.

Lemma unique_settle (existing : option WorkoutDay) (d : string)
    (o : ActionOutcome) (st : TrackerState) :
  uniqueDays (workoutDays st) ->
  uniqueDays (workoutDays (settle existing d o st)).
Proof.
  intros Hu. destruct (writeFailed o) eqn:Ho.
  - rewrite (settle_failed _ _ _ _ Ho). simpl. now apply unique_revert.
  - now rewrite (settle_succeeded _ _ _ _ Ho).
Qed.

Lemma unique_toggle (user : option User) (rendered : list WorkoutDay)
    (d : string) (o : ActionOutcome) (st : TrackerState) :
  showsPresence rendered d st ->
  uniqueDays (workoutDays st) ->
  uniqueDays (workoutDays (fst (toggleWorkoutDay user rendered d o st))).
Proof.
  intros Hshows Hu. destruct user as [u|]; [|exact Hu].
  rewrite toggle_unfold. apply unique_settle.
  now apply unique_optimistic.
Qed.

(** C5 as stated does not hold for every context value.  Two calls on
    the context value rendered with the empty list both find no record
    for the date and both append one: the list then holds two records
    with the same user id and date. *)
Lemma two_first_toggles_duplicate_the_record :
  workoutDays
    (runToggles [ (Some u1, [], "2024-01-05", writeOk);
                  (Some u1, [], "2024-01-05", writeOk) ] initialState)
  = [ {| user_id := "u1"; date := "2024-01-05"; completed := true |};
      {| user_id := "u1"; date := "2024-01-05"; completed := true |} ]
  /\ ~ uniqueDays
         (workoutDays
            (runToggles [ (Some u1, [], "2024-01-05", writeOk);
                          (Some u1, [], "2024-01-05", writeOk) ]
               initialState))
  /\ ~ togglesKeepUnique.
Proof.
  assert (Hdup : ~ uniqueDays
                     [ {| user_id := "u1"; date := "2024-01-05";
                          completed := true |};
                       {| user_id := "u1"; date := "2024-01-05";
                          completed := true |} ]).
  { unfold uniqueDays. simpl. intros Hu.
    inversion Hu as [|? ? Hnotin _]. apply Hnotin. now left. }
  repeat apply conj.
  - reflexivity.
  - exact Hdup.
  - intros Hclaim. apply Hdup.
    apply (Hclaim (Some u1) [] "2024-01-05" writeOk
             (fst (toggleWorkoutDay (Some u1) [] "2024-01-05" writeOk
                     initialState))).
    unfold uniqueDays. simpl. repeat constructor. intros [].
Qed.

(** C5, amended.  If the list has at most one record per
    (user_id, date), so has the list after the optimistic update of a
    toggle and the list after the toggle has settled, whatever the
    user, the date and the outcome of the write, provided the call is
    made on a context value that shows a record for the date whenever
    the list holds one (as the value rendered from the current list
    does); and so has the list after any run of such calls.  A rollback
    keeps the property on whatever list it is applied to, so also when
    it comes late. *)
Theorem toggle_preserves_uniqueness (st : TrackerState) :
  uniqueDays (workoutDays st) ->
  (forall u rendered d,
     showsPresence rendered d st ->
     uniqueDays (workoutDays (optimisticState u rendered d st)))
  /\ (forall user rendered d o,
        showsPresence rendered d st ->
        uniqueDays
          (workoutDays (fst (toggleWorkoutDay user rendered d o st))))
  /\ (forall existing d o,
        uniqueDays (workoutDays (settle existing d o st)))
  /\ (forall ops,
        callsShowPresence ops st ->
        uniqueDays (workoutDays (runToggles ops st))).
Proof.
  intros Hu. repeat apply conj.
  - intros u rendered d Hshows. now apply unique_optimistic.
  - intros user rendered d o Hshows. now apply unique_toggle.
  - intros existing d o. now apply unique_settle.
  - intros ops. revert st Hu.
    induction ops as [|[[[user rendered] d] o] rest IH];
      intros st Hu Hcalls; simpl.
    + exact Hu.
    + destruct Hcalls as [Hshows Hrest].
      apply IH; [|exact Hrest]. now apply unique_toggle.
Qed.

Lemma toggle_preserves_uniqueness_witness :
  uniqueDays
    (workoutDays
       (runToggles
          [ (Some u1, workoutDays twoDays, "2024-01-07", writeOk);
            (Some u1, workoutDays twoDays, "2024-01-05", Rejects) ]
          twoDays)).
Proof.
  refine (proj2 (proj2 (proj2 (toggle_preserves_uniqueness twoDays _))) _ _).
  - unfold uniqueDays. simpl.
    constructor; [intros [H | []]; discriminate H|].
    constructor; [intros [] | constructor].
  - simpl. repeat split; intros H; try discriminate H; reflexivity.
Defined.

(** *** Presence of records *)

Lemma present_optimistic (u : User) (rendered : list WorkoutDay)
    (d d0 : string) (st : TrackerState) :
  present d st -> present d (optimisticState u rendered d0 st).
Proof.
  unfold present. intros Hp.
  destruct (string_dec d d0) as [->|Hne].
  - rewrite findDay_optimistic.
    destruct (findDay d0 rendered), (findDay d0 (workoutDays st));
      simpl; congruence.
  - now rewrite optimistic_other_date.
Qed.

Lemma present_settle (existing : option WorkoutDay) (d d0 : string)
    (o : ActionOutcome) (st : TrackerState) :
  present d st ->
  existing <> None \/ d0 <> d \/ writeFailed o = false ->
  present d (settle existing d0 o st).
Proof.
  unfold present. intros Hp Hcase.
  destruct (writeFailed o) eqn:Ho;
    [|now rewrite (settle_succeeded _ _ _ _ Ho)].
  destruct (string_dec d d0) as [->|Hne];
    [|now rewrite settle_other_date].
  rewrite (settle_failed _ _ _ _ Ho). simpl.
  destruct existing as [w|].
  - simpl. rewrite findDay_set_flag_same.
    destruct (findDay d0 (workoutDays st)); simpl; congruence.
  - destruct Hcase as [H | [H | H]]; congruence.
Qed.

Lemma present_toggle (user : option User) (rendered : list WorkoutDay)
    (d d0 : string) (o : ActionOutcome) (st : TrackerState) :
  present d st ->
  showsPresence rendered d0 st ->
  present d (fst (toggleWorkoutDay user rendered d0 o st)).
Proof.
  intros Hp Hshows. destruct user as [u|]; [|exact Hp].
  rewrite toggle_unfold. apply present_settle.
  - now apply present_optimistic.
  - destruct (string_dec d0 d) as [->|Hne]; [|now right; left].
    left. intros Hnone. apply Hp. now apply Hshows.
Qed.

(** C6 as stated does not hold.  The rollback of a first toggle
    deletes the record that its optimistic update had put in the list,
    and a change notification whose read brings a list without the date
    deletes the record of the date. *)
Lemma rollback_deletes_appended_record :
  workoutDays (step (Start u1 [] "2024-01-05") initialState)
    = [ {| user_id := "u1"; date := "2024-01-05"; completed := true |} ]
  /\ workoutDays
       (step (Settle None "2024-01-05" writeRefused)
          (step (Start u1 [] "2024-01-05") initialState))
     = []
  /\ workoutDays
       (step (Changed (Some u1) DELETE (ReadResolves [])) jan5Done)
     = []
  /\ ~ neverLocallyDeleted.
Proof.
  repeat split.
  intros Hnever.
  apply (Hnever (Settle None "2024-01-05" writeRefused)
           (step (Start u1 [] "2024-01-05") initialState) "2024-01-05").
  - unfold present. simpl. discriminate.
  - reflexivity.
Qed.

(** C6, amended.  A date that has a record in the list loses it in two
    cases only: by the rollback of a toggle of that date whose call had
    found no record for it in its context value and whose write has
    failed (every record on the date goes, the one that call appended
    and any other), and by a load or a change notification whose read
    resolves with a list that has no record for the date.  After every
    other step (an optimistic update, the settling of a successful
    write, the rollback of a toggle of another date or of a toggle that
    had found a record, a read that rejects, a notification without a
    user id) the date still has a record, possibly with
    [completed = false].  In particular a whole call of
    [toggleWorkoutDay] made on a context value that shows a record for
    its date whenever the list holds one deletes no date, whatever the
    write does, and neither does a run of such calls. *)
Theorem present_record_stays (st : TrackerState) (d : string) :
  present d st ->
  (forall s, present d (step s st) <-> ~ removes s d)
  /\ (forall user rendered d0 o,
        showsPresence rendered d0 st ->
        present d (fst (toggleWorkoutDay user rendered d0 o st)))
  /\ (forall ops,
        callsShowPresence ops st ->
        present d (runToggles ops st)).
Proof.
  intros Hp. repeat apply conj.
  - intros s. split.
    + intros Hafter Hrem.
      destruct s as [u rendered d0 | existing d0 o | user [w|t]
                    | [u|] payload [w|t]]; simpl in Hrem;
        try contradiction.
      * destruct Hrem as (-> & -> & Hfail). apply Hafter. simpl.
        rewrite (settle_failed _ _ _ _ Hfail). simpl.
        apply findDay_filter_same.
      * destruct Hrem as [Hid Hnone]. apply Hafter.
        unfold step, onPostgresChanges.
        apply String.eqb_neq in Hid. rewrite Hid. exact Hnone.
    + intros Hnot.
      destruct s as [u rendered d0 | existing d0 o | user [w|t]
                    | [u|] payload [w|t]]; simpl in Hnot; simpl.
      * now apply present_optimistic.
      * apply present_settle; [exact Hp|].
        destruct existing as [w|]; [left; discriminate|].
        destruct (string_dec d0 d) as [->|Hne]; [|now right; left].
        right. right. destruct (writeFailed o); [|reflexivity].
        exfalso. apply Hnot. repeat split.
      * exact Hnot.
      * exact Hp.
      * unfold onPostgresChanges. destruct (id u =? "") eqn:Hid;
          [exact Hp|].
        intros Hnone. apply Hnot. split; [|exact Hnone].
        now apply String.eqb_neq.
      * unfold onPostgresChanges. destruct (id u =? ""); exact Hp.
      * exact Hp.
      * exact Hp.
  - intros user rendered d0 o Hshows. now apply present_toggle.
  - intros ops. revert st Hp.
    induction ops as [|[[[user rendered] d0] o] rest IH];
      intros st Hp Hcalls; simpl.
    + exact Hp.
    + destruct Hcalls as [Hshows Hrest].
      apply IH; [|exact Hrest]. now apply present_toggle.
Qed.

Lemma present_record_stays_witness :
  present "2024-01-05"
    (runToggles
       [ (Some u1, workoutDays twoDays, "2024-01-05", Rejects);
         (Some u1, workoutDays twoDays, "2024-01-07", writeRefused);
         (Some u1, workoutDays twoDays, "2024-01-05", writeOk) ]
       twoDays).
Proof.
  refine (proj2 (proj2 (present_record_stays twoDays "2024-01-05" _)) _ _).
  - unfold present. simpl. discriminate.
  - simpl. repeat split; intros H; try discriminate H; reflexivity.
Defined.

(** The scenario of the specification, each call made on the context
    value of the list as it is then: from no records, a toggle whose
    write succeeds marks the day; during a second toggle the day shows
    as not completed, and when its write fails the day is marked
    again. *)
Example toggle_scenario :
  workoutDays
    (runToggles [ (Some u1, [], "2024-01-05", writeOk) ] initialState)
  = [ {| user_id := "u1"; date := "2024-01-05"; completed := true |} ]
  /\ workoutDays
       (optimisticState u1 [jan5] "2024-01-05"
          (runToggles [ (Some u1, [], "2024-01-05", writeOk) ] initialState))
     = [ {| user_id := "u1"; date := "2024-01-05"; completed := false |} ]
  /\ workoutDays
       (runToggles [ (Some u1, [], "2024-01-05", writeOk);
                     (Some u1, [jan5], "2024-01-05", writeRefused) ]
          initialState)
     = [ {| user_id := "u1"; date := "2024-01-05"; completed := true |} ].
Proof. repeat split. Qed.

(** *** Frame properties *)

(** C7. Without an authenticated user a toggle does nothing: the
    state (list, loading flag, error message) is the same and no call
    is issued, whatever the context value, the date and whatever the
    write would have done. *)
Theorem toggle_without_user_is_noop (rendered : list WorkoutDay)
    (d : string) (o : ActionOutcome) (st : TrackerState) :
  toggleWorkoutDay None rendered d o st = (st, [])
  /\ workoutDays (fst (toggleWorkoutDay None rendered d o st))
     = workoutDays st
  /\ isLoading (fst (toggleWorkoutDay None rendered d o st)) = isLoading st
  /\ error (fst (toggleWorkoutDay None rendered d o st)) = error st
  /\ snd (toggleWorkoutDay None rendered d o st) = [].
Proof. repeat split. Qed.

(** C8. When the write returns [success:true], the state after the
    call is the optimistic state, and the only call issued is the write
    itself, with the user's id, the date and the target value: there is
    no read of the stored records.  This holds on every context
    value. *)
Theorem successful_toggle_keeps_optimistic_state (u : User)
    (rendered : list WorkoutDay) (d : string) (r : ActionResult)
    (st : TrackerState) :
  success r = true ->
  toggleWorkoutDay (Some u) rendered d (Resolves r) st
  = (optimisticState u rendered d st,
     [ToggleWorkoutDayAction (id u) d
        (newCompletedOf (findDay d rendered))])
  /\ (forall uid,
        ~ In (GetUserWorkouts uid)
             (snd (toggleWorkoutDay (Some u) rendered d (Resolves r) st))).
Proof.
  intros Hok. split.
  - unfold toggleWorkoutDay, settle. rewrite Hok. reflexivity.
  - intros uid [Hin | []]. discriminate.
Qed.

Lemma successful_toggle_keeps_optimistic_state_witness :
  toggleWorkoutDay (Some u1) [] "2024-01-05" writeOk initialState
  = ({| workoutDays :=
          [ {| user_id := "u1"; date := "2024-01-05"; completed := true |} ];
        isLoading := true; error := None |},
     [ToggleWorkoutDayAction "u1" "2024-01-05" true]).
Proof.
  exact (proj1 (successful_toggle_keeps_optimistic_state u1 []
                  "2024-01-05" {| success := true |} initialState eq_refl)).
Defined.

End TrackerProofs.

(* ================================================================== *)
(** ** Properties of the query actions *)
(* ================================================================== *)

Module ActionsProofs.
Import Actions.

(** *** The exception monad *)

(** A [try] whose handler returns a value never throws. *)
Lemma tryCatch_returns {A : Type} (body : Run A) (fallback : A) :
  exists a, completion (tryCatch body (fun _ => ret fallback)) = Return a.
Proof.
  destruct body as [log [a|e]]; simpl; eauto.
Qed.

(** Case analysis on everything a run branches on: the responses of
    the store first, then the rows and flags they carry. *)
Ltac branch :=
  repeat (cbn -[String.eqb Z.eqb toString getDefaultCategories map];
          match goal with
          | |- context [await _ ?r] => destruct r as [[?|]|?|?]
          | |- context [match ?x with _ => _ end] => is_var x; destruct x
          | |- context [match ?x with _ => _ end] =>
              lazymatch type of x with
              | prod _ _ => fail
              | Run _ => fail
              | _ => destruct x
              end
          end).

Ltac settle_run :=
  unfold fallsBackTo, neverThrows, onThrow, onErrorOf,
         issued, completion, anyErrored, anyThrew, erroredOn;
  repeat split; intros;
  try reflexivity; try discriminate; eauto.

(** *** Each action, one at a time *)

Lemma getWarmupExercises_safe (sb : Supabase) :
  onThrow [] (getWarmupExercises sb)
  /\ fallsBackTo [] (getWarmupExercises sb).
Proof. unfold getWarmupExercises. branch; settle_run. Qed.

Lemma getStretchExercises_safe (sb : Supabase) :
  onThrow [] (getStretchExercises sb)
  /\ fallsBackTo [] (getStretchExercises sb).
Proof. unfold getStretchExercises. branch; settle_run. Qed.

Lemma getWorkoutExercises_safe (sb : Supabase) :
  onThrow [] (getWorkoutExercises sb)
  /\ onErrorOf (fun q => negb (isExercisesLimit10 q)) []
       (getWorkoutExercises sb)
  /\ onErrorOf isExercisesLimit10 [workoutPlaceholder]
       (getWorkoutExercises sb).
Proof. unfold getWorkoutExercises. branch; settle_run. Qed.

Lemma getExercisesByType_safe (sb : Supabase) (type : ExerciseType) :
  onThrow [] (getExercisesByType sb type)
  /\ fallsBackTo [] (getExercisesByType sb type).
Proof. unfold getExercisesByType. branch; settle_run. Qed.

Lemma getExerciseById_safe (sb : Supabase) (n : Z) :
  onThrow None (getExerciseById sb n)
  /\ fallsBackTo None (getExerciseById sb n).
Proof. unfold getExerciseById. branch; settle_run. Qed.

Lemma getExerciseGroups_safe (sb : Supabase) :
  onThrow [] (getExerciseGroups sb)
  /\ onErrorOf isExerciseGroupsByName [] (getExerciseGroups sb).
Proof. unfold getExerciseGroups. branch; settle_run. Qed.

Lemma getExercisesByGroup_safe (js : Builtins) (sb : Supabase) (n : Z) :
  onThrow [] (getExercisesByGroup js sb n)
  /\ onErrorOf isGroupOrItsExercises [] (getExercisesByGroup js sb n).
Proof. unfold getExercisesByGroup. branch; settle_run. Qed.

(** When the procedure reports an error and the direct query answers,
    the groups returned are the rows of the direct query, one for
    one. *)
Lemma getExerciseGroups_falls_back (sb : Supabase) (e : PostgrestError)
    (rows : list GroupRow.t) :
  rpc_get_exercise_groups_with_details sb = Failure e ->
  exercise_groups_by_name sb = Success (Some rows) ->
  anyThrew (issued (getExerciseGroups sb)) = false ->
  exists groups,
    completion (getExerciseGroups sb) = Return groups
    /\ map ExerciseGroup.id groups = map GroupRow.id rows
    /\ map ExerciseGroup.name groups = map GroupRow.name rows.
Proof.
  intros Hrpc Hdirect. unfold getExerciseGroups. rewrite Hrpc, Hdirect.
  destruct (exercise_fir_all sb) as [firData|?|?];
    destruct (exercise_body_section_all sb) as [sectionData|?|?];
    cbn -[map]; intros Hthrew; try discriminate;
    (eexists; split; [reflexivity|]);
    rewrite !map_map; split; reflexivity.
Qed.

(** *** Failures of the store *)

(** C9 as stated does not hold: a reported error does not always give
    the empty list.  When the procedure fails, [getExerciseGroups]
    answers with the rows of the direct query; when the query for any
    ten exercises fails, [getWorkoutExercises] answers with its
    placeholder. *)
Lemma reported_error_without_empty_list :
  erroredOn isRpc (issued (getExerciseGroups rpcDownStore)) = true
  /\ completion (getExerciseGroups rpcDownStore)
     = Return [ {| ExerciseGroup.id := 1;
                   ExerciseGroup.name := "Legs";
                   ExerciseGroup.description := None;
                   ExerciseGroup.image_url := None;
                   ExerciseGroup.body_sec := 1;
                   ExerciseGroup.body_section_name := Some "lower";
                   ExerciseGroup.fir_level := Some 2%Z;
                   ExerciseGroup.fir_level_name := Some "Moderate";
                   ExerciseGroup.category_id := None |} ]
  /\ erroredOn isExercisesLimit10
       (issued (getWorkoutExercises fallbackDownStore)) = true
  /\ completion (getWorkoutExercises fallbackDownStore)
     = Return [workoutPlaceholder]
  /\ (forall js, ~ errorsGiveEmpty js).
Proof.
  repeat split.
  intros js Hclaim.
  destruct (Hclaim rpcDownStore warmup 0%Z) as (_ & _ & _ & _ & Hgroups & _).
  specialize (Hgroups eq_refl). discriminate Hgroups.
Qed.

(** C9, amended.  None of the seven actions lets an exception reach
    its caller, and when an awaited query throws, the six list actions
    return the empty list and [getExerciseById] returns [undefined].
    When a query reports an error instead, [getWarmupExercises],
    [getStretchExercises] and [getExercisesByType] return the empty
    list and [getExerciseById] returns [undefined];
    [getWorkoutExercises] returns the empty list unless the error is
    that of its last-resort query for any ten exercises, where it
    returns its placeholder; [getExerciseGroups] turns to a direct
    query on the groups when the procedure reports an error, returns
    one group per row of that query when it answers, and the empty
    list when it reports an error too;
    [getExercisesByGroup] returns the empty list when the query for
    the group or the one for its exercises reports an error. *)
Theorem query_actions_absorb_failures (js : Builtins) (sb : Supabase)
    (type : ExerciseType) (n : Z) :
  (neverThrows (getWarmupExercises sb)
   /\ onThrow [] (getWarmupExercises sb)
   /\ fallsBackTo [] (getWarmupExercises sb))
  /\ (neverThrows (getStretchExercises sb)
      /\ onThrow [] (getStretchExercises sb)
      /\ fallsBackTo [] (getStretchExercises sb))
  /\ (neverThrows (getWorkoutExercises sb)
      /\ onThrow [] (getWorkoutExercises sb)
      /\ onErrorOf (fun q => negb (isExercisesLimit10 q)) []
           (getWorkoutExercises sb)
      /\ onErrorOf isExercisesLimit10 [workoutPlaceholder]
           (getWorkoutExercises sb))
  /\ (neverThrows (getExercisesByType sb type)
      /\ onThrow [] (getExercisesByType sb type)
      /\ fallsBackTo [] (getExercisesByType sb type))
  /\ (neverThrows (getExerciseGroups sb)
      /\ onThrow [] (getExerciseGroups sb)
      /\ onErrorOf isExerciseGroupsByName [] (getExerciseGroups sb)
      /\ (forall e rows,
            rpc_get_exercise_groups_with_details sb = Failure e ->
            exercise_groups_by_name sb = Success (Some rows) ->
            anyThrew (issued (getExerciseGroups sb)) = false ->
            exists groups,
              completion (getExerciseGroups sb) = Return groups
              /\ map ExerciseGroup.id groups = map GroupRow.id rows
              /\ map ExerciseGroup.name groups = map GroupRow.name rows))
  /\ (neverThrows (getExercisesByGroup js sb n)
      /\ onThrow [] (getExercisesByGroup js sb n)
      /\ onErrorOf isGroupOrItsExercises [] (getExercisesByGroup js sb n))
  /\ (neverThrows (getExerciseById sb n)
      /\ onThrow None (getExerciseById sb n)
      /\ fallsBackTo None (getExerciseById sb n)).
Proof.
  repeat apply conj;
    try (apply tryCatch_returns);
    first [ apply getWarmupExercises_safe
          | apply getStretchExercises_safe
          | apply getWorkoutExercises_safe
          | apply getExercisesByType_safe
          | apply getExerciseGroups_safe
          | apply getExercisesByGroup_safe
          | apply getExerciseById_safe
          | apply getExerciseGroups_falls_back ].
Qed.

Lemma query_actions_absorb_failures_witness :
  completion (getExerciseGroups offlineStore) = Return []
  /\ completion (getWorkoutExercises fallbackDownStore)
     = Return [workoutPlaceholder].
Proof.
  destruct (query_actions_absorb_failures asciiBuiltins offlineStore warmup
              0%Z)
    as (_ & _ & _ & _ & (_ & Hthrow & _) & _).
  destruct (query_actions_absorb_failures asciiBuiltins fallbackDownStore
              warmup 0%Z)
    as (_ & _ & (_ & _ & _ & Hlast) & _).
  split; [apply Hthrow | apply Hlast]; reflexivity.
Defined.

(** *** Body sections *)

(** C10. [getBodySections] always returns, and what it returns is not
    empty: the [body_section] values of the rows, in their order, when
    the query answers with at least one row, and the list
    [lower, middle, upper] when the query reports an error, throws, or
    answers with no rows. *)
Theorem getBodySections_never_empty (sb : Supabase) :
  exists sections,
    completion (getBodySections sb) = Return sections
    /\ sections <> []
    /\ sections =
       match body_sections_ordered sb with
       | Success (Some (row :: rows)) =>
           map BodySectionName.body_section (row :: rows)
       | Success (Some []) | Success None | Failure _ | Rejected _ =>
           ["lower"; "middle"; "upper"]
       end.
Proof.
  unfold getBodySections.
  destruct (body_sections_ordered sb) as [[[|row rows]|]|e|x]; simpl;
    eexists; (split; [reflexivity|]); split; try reflexivity; discriminate.
Qed.

Example getBodySections_rows :
  completion (getBodySections sectionsStore) = Return ["upper"; "core"].
Proof. reflexivity. Qed.

Example getBodySections_offline :
  completion (getBodySections offlineStore)
  = Return ["lower"; "middle"; "upper"].
Proof. reflexivity. Qed.

End ActionsProofs.

(* ================================================================== *)
(** ** More on the tracker: what a toggle shows and what it keeps *)
(* ================================================================== *)

Module TrackerExtras.
Import RecordContext TrackerProofs.

(** *** What readers see *)

(** A toggle of one date is not seen on any other date, whoever the
    user, whatever context value the call is made on and whatever the
    write does. *)
Theorem toggle_leaves_other_dates (user : option User)
    (rendered : list WorkoutDay) (d d' : string) (o : ActionOutcome)
    (st : TrackerState) :
  d' <> d ->
  findDay d' (workoutDays (fst (toggleWorkoutDay user rendered d o st)))
  = findDay d' (workoutDays st)
  /\ isWorkoutCompleted (fst (toggleWorkoutDay user rendered d o st)) d'
     = isWorkoutCompleted st d'.
Proof.
  intros Hne.
  pose proof (toggle_other_date user rendered d d' o st Hne) as Hfind.
  split; [exact Hfind|].
  rewrite !isWorkoutCompleted_found. now rewrite Hfind.
Qed.

Lemma toggle_leaves_other_dates_witness :
  isWorkoutCompleted
    (fst (toggleWorkoutDay (Some u1) [] "2024-01-06" writeOk jan5Done))
    "2024-01-05"
  = isWorkoutCompleted jan5Done "2024-01-05".
Proof.
  refine (proj2 (toggle_leaves_other_dates (Some u1) [] "2024-01-06"
                   "2024-01-05" writeOk jan5Done _)).
  discriminate.
Defined.

(** What the date reads as after the optimistic update. *)
Lemma optimistic_answer (u : User) (rendered : list WorkoutDay) (d : string)
    (st : TrackerState) :
  isWorkoutCompleted (optimisticState u rendered d st) d
  = match findDay d rendered, findDay d (workoutDays st) with
    | Some w, Some _ => negb (completed w)
    | Some _, None => false
    | None, Some x => completed x
    | None, None => true
    end.
Proof.
  rewrite isWorkoutCompleted_found, findDay_optimistic.
  destruct (findDay d rendered), (findDay d (workoutDays st)); reflexivity.
Qed.

(** With a user and a write that goes through, the date reads as the
    negation of what the context value of the call shows for it, not of
    what the list holds: when the value shows a record, the records of
    the date get the negation of its flag (and the date reads [false]
    if the list has none); when it shows none, a record with [true] is
    appended after the others (and the date reads as the record the
    list already had, if any).  So the answer of [isWorkoutCompleted]
    is negated by the call when the context value shows the record the
    list holds, and need not be otherwise. *)
Theorem successful_toggle_flips (u : User) (rendered : list WorkoutDay)
    (d : string) (o : ActionOutcome) (st : TrackerState) :
  writeFailed o = false ->
  isWorkoutCompleted (fst (toggleWorkoutDay (Some u) rendered d o st)) d
  = match findDay d rendered, findDay d (workoutDays st) with
    | Some w, Some _ => negb (completed w)
    | Some _, None => false
    | None, Some x => completed x
    | None, None => true
    end
  /\ (showsCurrent rendered d st ->
      isWorkoutCompleted (fst (toggleWorkoutDay (Some u) rendered d o st)) d
      = negb (isWorkoutCompleted st d)).
Proof.
  intros Hok. rewrite (successful_toggle_list u rendered d o st Hok).
  split; [apply optimistic_answer|].
  unfold showsCurrent. intros Hshows.
  rewrite optimistic_answer, isWorkoutCompleted_found, Hshows.
  destruct (findDay d (workoutDays st)); reflexivity.
Qed.

Lemma successful_toggle_flips_witness :
  isWorkoutCompleted
    (fst (toggleWorkoutDay (Some u1) (workoutDays twoDays) "2024-01-06"
            writeOk twoDays))
    "2024-01-06"
  = negb (isWorkoutCompleted twoDays "2024-01-06").
Proof.
  exact (proj2 (successful_toggle_flips u1 (workoutDays twoDays)
                  "2024-01-06" writeOk twoDays eq_refl) eq_refl).
Defined.

(** A toggle made on a context value that shows the record the list
    holds for the date, and whose write fails before anything else
    updates the list: while the write is awaited the date reads as the
    negation of its value; once the write has failed every date reads
    as before the call, and the records have kept their keys and their
    order.  The loading flag and the error message are the same
    throughout: the failure is not reported. *)
Theorem failed_toggle_shows_then_restores (u : User)
    (rendered : list WorkoutDay) (d : string) (o : ActionOutcome)
    (st : TrackerState) :
  writeFailed o = true ->
  showsCurrent rendered d st ->
  let pending := optimisticState u rendered d st in
  let st' := fst (toggleWorkoutDay (Some u) rendered d o st) in
  isWorkoutCompleted pending d = negb (isWorkoutCompleted st d)
  /\ (forall d', isWorkoutCompleted st' d' = isWorkoutCompleted st d')
  /\ map key (workoutDays st') = map key (workoutDays st)
  /\ isLoading pending = isLoading st /\ error pending = error st
  /\ isLoading st' = isLoading st /\ error st' = error st.
Proof.
  intros Hfail Hshows pending st'.
  destruct (failed_toggle_lookups u rendered d o st Hfail Hshows)
    as [Hsame Habsent].
  destruct (toggle_keeps_flags (Some u) rendered d o st) as [Hload Herr].
  repeat apply conj; try assumption; try reflexivity.
  - unfold pending. unfold showsCurrent in Hshows.
    rewrite optimistic_answer, isWorkoutCompleted_found, Hshows.
    destruct (findDay d (workoutDays st)); reflexivity.
  - intros d'. rewrite !isWorkoutCompleted_found. unfold st'.
    destruct (string_dec d' d) as [->|Hne].
    + now rewrite Hsame.
    + now rewrite (toggle_other_date (Some u) rendered d d' o st Hne).
  - unfold st'. unfold showsCurrent in Hshows.
    destruct (findDay d rendered) as [w|] eqn:Hfind.
    + rewrite (failed_toggle_existing u rendered d o st w Hfail Hfind).
      apply keys_set_flag.
    + symmetry in Hshows. now rewrite (Habsent Hshows).
Qed.

Lemma failed_toggle_shows_then_restores_witness :
  isWorkoutCompleted
    (optimisticState u1 (workoutDays twoDays) "2024-01-05" twoDays)
    "2024-01-05"
  = negb (isWorkoutCompleted twoDays "2024-01-05")
  /\ map key
       (workoutDays (fst (toggleWorkoutDay (Some u1) (workoutDays twoDays)
                            "2024-01-05" Rejects twoDays)))
     = map key (workoutDays twoDays).
Proof.
  destruct (failed_toggle_shows_then_restores u1 (workoutDays twoDays)
              "2024-01-05" Rejects twoDays eq_refl eq_refl)
    as (Hpending & _ & Hkeys & _).
  split; [exact Hpending | exact Hkeys].
Defined.

(** *** What a toggle keeps *)

(** A toggle never reorders the records and never changes a user id or
    a date.  Without a user, or on a context value that shows a record
    for the date, the keys after the call are the keys before it.  On a
    context value that shows none, a write that goes through leaves the
    keys followed by the key of the new record, and a write that fails
    leaves the keys of the records on the other dates, in their order
    (no record on the date is left). *)
Theorem toggle_keeps_keys (user : option User) (rendered : list WorkoutDay)
    (d : string) (o : ActionOutcome) (st : TrackerState) :
  map key (workoutDays (fst (toggleWorkoutDay user rendered d o st)))
  = match user, findDay d rendered, writeFailed o with
    | Some u, None, false => (map key (workoutDays st) ++ [(id u, d)])%list
    | Some u, None, true =>
        map key (filter (fun day => negb (date day =? d)) (workoutDays st))
    | _, _, _ => map key (workoutDays st)
    end.
Proof.
  destruct user as [u|]; [|reflexivity].
  destruct (findDay d rendered) as [w|] eqn:Hfind,
           (writeFailed o) eqn:Ho.
  - rewrite (failed_toggle_existing u rendered d o st w Ho Hfind).
    apply keys_set_flag.
  - rewrite (successful_toggle_list u rendered d o st Ho).
    unfold optimisticState. rewrite Hfind. simpl. apply keys_set_flag.
  - now rewrite (failed_toggle_absent u rendered d o st Ho Hfind).
  - rewrite (successful_toggle_list u rendered d o st Ho).
    unfold optimisticState. rewrite Hfind. simpl. now rewrite map_app.
Qed.

Lemma set_flag_value (d : string) (c : bool) (wds : list WorkoutDay)
    (x : WorkoutDay) :
  In x (map (fun day => if date day =? d then with_completed day c
                        else day) wds) ->
  date x = d -> completed x = c.
Proof.
  intros Hin Hd. apply in_map_iff in Hin. destruct Hin as [y [Hy _]].
  assert (Hyd : date y = d).
  { rewrite <- Hd, <- Hy. symmetry. apply set_flag_keeps_date. }
  apply String.eqb_eq in Hyd. rewrite Hyd in Hy. now subst x.
Qed.

(** When the context value of the call shows a record for the date,
    every record that the list holds on the date gets the negation of
    that record's flag by the optimistic update, also when the list
    holds several records on the date; after the call, every record on
    the date carries that negation if the write went through and the
    flag of the record shown if it failed. *)
Theorem toggle_sets_all_on_date (u : User) (rendered : list WorkoutDay)
    (d : string) (w : WorkoutDay) (st : TrackerState) :
  findDay d rendered = Some w ->
  (forall x, In x (workoutDays (optimisticState u rendered d st)) ->
             date x = d -> completed x = negb (completed w))
  /\ (forall o x,
        In x (workoutDays (fst (toggleWorkoutDay (Some u) rendered d o st))) ->
        date x = d ->
        completed x = if writeFailed o then completed w
                      else negb (completed w)).
Proof.
  intros Hfind.
  assert (Hopt : forall x,
            In x (workoutDays (optimisticState u rendered d st)) ->
            date x = d -> completed x = negb (completed w)).
  { unfold optimisticState. rewrite Hfind. simpl.
    intros x. apply set_flag_value. }
  split; [exact Hopt|].
  intros o x. destruct (writeFailed o) eqn:Ho.
  - rewrite (failed_toggle_existing u rendered d o st w Ho Hfind).
    apply set_flag_value.
  - rewrite (successful_toggle_list u rendered d o st Ho). apply Hopt.
Qed.

Lemma toggle_sets_all_on_date_witness :
  completed {| user_id := "u2"; date := "2024-01-05"; completed := false |}
  = negb (completed jan5).
Proof.
  refine (proj1 (toggle_sets_all_on_date u1 (workoutDays jan5Done)
                   "2024-01-05" jan5
                   {| workoutDays :=
                        [ jan5;
                          {| user_id := "u2"; date := "2024-01-05";
                             completed := true |} ];
                      isLoading := false; error := None |} eq_refl)
            {| user_id := "u2"; date := "2024-01-05"; completed := false |}
            _ eq_refl).
  simpl. right. left. reflexivity.
Defined.

(** *** States reached from the initial one *)

Lemma dates_set_flag (d : string) (c : bool) (wds : list WorkoutDay) :
  map date (map (fun day => if date day =? d then with_completed day c
                            else day) wds)
  = map date wds.
Proof.
  rewrite map_map. apply map_ext. intros w. apply set_flag_keeps_date.
Qed.

Lemma nodup_dates_filter (p : WorkoutDay -> bool) (wds : list WorkoutDay) :
  NoDup (map date wds) -> NoDup (map date (filter p wds)).
Proof.
  induction wds as [|w rest IH]; simpl; intros Hu.
  - constructor.
  - inversion Hu as [|? ? Hnotin Hrest]; subst.
    destruct (p w); simpl; [|now apply IH].
    constructor; [|now apply IH].
    intros Hin. apply Hnotin.
    apply in_map_iff in Hin. destruct Hin as [x [Hk Hx]].
    apply filter_In in Hx. apply in_map_iff. exists x. tauto.
Qed.

Lemma nodup_dates_settle (existing : option WorkoutDay) (d : string)
    (o : ActionOutcome) (st : TrackerState) :
  NoDup (map date (workoutDays st)) ->
  NoDup (map date (workoutDays (settle existing d o st))).
Proof.
  intros Hu. destruct (writeFailed o) eqn:Ho.
  - rewrite (settle_failed _ _ _ _ Ho). simpl.
    destruct existing as [w|]; simpl.
    + now rewrite dates_set_flag.
    + now apply nodup_dates_filter.
  - now rewrite (settle_succeeded _ _ _ _ Ho).
Qed.

Lemma nodup_dates_optimistic (u : User) (rendered : list WorkoutDay)
    (d : string) (st : TrackerState) :
  showsPresence rendered d st ->
  NoDup (map date (workoutDays st)) ->
  NoDup (map date (workoutDays (optimisticState u rendered d st))).
Proof.
  unfold showsPresence, optimisticState. intros Hshows Hu.
  destruct (findDay d rendered) as [w|]; simpl.
  - now rewrite dates_set_flag.
  - rewrite map_app. simpl. apply NoDup_snoc; [exact Hu|].
    intros Hin. apply in_map_iff in Hin. destruct Hin as [x [Hx Hin]].
    exact (findDay_none_dates d _ (Hshows eq_refl) x Hin Hx).
Qed.

Lemma nodup_dates_steps (l : list Step) (st : TrackerState) :
  readsUnique l ->
  startsShowPresence l st ->
  NoDup (map date (workoutDays st)) ->
  NoDup (map date (workoutDays (steps l st))).
Proof.
  unfold steps, readsUnique. revert st.
  induction l as [|s rest IH]; intros st Hreads Hstarts Hu; simpl;
    [exact Hu|].
  inversion Hreads as [|? ? Hs Hrest]; subst.
  destruct Hstarts as [Hshows Hafter].
  apply IH; [exact Hrest | exact Hafter |].
  destruct s as [u rendered d | existing d o | user [workouts|thrown]
                | user payload [workouts|thrown]]; simpl.
  - now apply nodup_dates_optimistic.
  - now apply nodup_dates_settle.
  - exact Hs.
  - exact Hu.
  - destruct user as [u|]; [|exact Hu].
    unfold onPostgresChanges.
    destruct (id u =? ""); simpl; [exact Hu | exact Hs].
  - destruct user as [u|]; [|exact Hu].
    unfold onPostgresChanges.
    destruct (id u =? ""); simpl; exact Hu.
Qed.

Lemma nodup_map_injective {A B : Type} (f : A -> B) (l : list A) (x y : A) :
  NoDup (map f l) -> In x l -> In y l -> f x = f y -> x = y.
Proof.
  induction l as [|a rest IH]; simpl; intros Hu Hx Hy Hf; [contradiction|].
  inversion Hu as [|? ? Hnotin Hrest]; subst.
  destruct Hx as [-> | Hx], Hy as [-> | Hy].
  - reflexivity.
  - exfalso. apply Hnotin. rewrite Hf. now apply in_map.
  - exfalso. apply Hnotin. rewrite <- Hf. now apply in_map.
  - now apply IH.
Qed.

Lemma failed_toggle_exact (u : User) (rendered : list WorkoutDay)
    (d : string) (o : ActionOutcome) (st : TrackerState) :
  NoDup (map date (workoutDays st)) ->
  writeFailed o = true ->
  showsCurrent rendered d st ->
  fst (toggleWorkoutDay (Some u) rendered d o st) = st.
Proof.
  intros Hu Hfail Hshows.
  destruct (toggle_keeps_flags (Some u) rendered d o st) as [Hload Herr].
  apply state_eq; try assumption.
  unfold showsCurrent in Hshows.
  destruct (findDay d rendered) as [w|] eqn:Hfind.
  - rewrite (failed_toggle_existing u rendered d o st w Hfail Hfind).
    apply set_flag_same. symmetry in Hshows.
    destruct (findDay_found_date _ _ _ Hshows) as [Hin Hd].
    intros x Hx Hxd.
    apply (nodup_map_injective date (workoutDays st)); congruence.
  - rewrite (failed_toggle_absent u rendered d o st Hfail Hfind).
    symmetry in Hshows. now apply filter_absent.
Qed.

(** In every state reached from the initial one by optimistic updates,
    settlings of writes, loads and change notifications, in any order,
    the list has one record per date at most, provided every toggle is
    started on a context value that shows a record for its date
    whenever the list then holds one, and the lists that the reads hand
    over have one record per date at most.  In such a state a toggle
    made on a context value that shows the record the list holds, and
    whose write fails before anything else updates the list, puts back
    the very state it started from. *)
Theorem reachable_states_one_record_per_date (l : list Step) :
  readsUnique l ->
  startsShowPresence l initialState ->
  NoDup (map date (workoutDays (steps l initialState)))
  /\ (forall u rendered d o,
        writeFailed o = true ->
        showsCurrent rendered d (steps l initialState) ->
        fst (toggleWorkoutDay (Some u) rendered d o (steps l initialState))
        = steps l initialState).
Proof.
  intros Hreads Hstarts.
  assert (Hu : NoDup (map date (workoutDays (steps l initialState)))).
  { apply nodup_dates_steps; [exact Hreads | exact Hstarts | constructor]. }
  split; [exact Hu|].
  intros u rendered d o Hfail Hshows. now apply failed_toggle_exact.
Qed.

Lemma reachable_states_one_record_per_date_witness :
  NoDup
    (map date
       (workoutDays
          (steps [ Start u1 [] "2024-01-05";
                   Changed (Some u1) UPDATE
                     (ReadResolves (workoutDays jan5Done));
                   Start u1 (workoutDays jan5Done) "2024-01-06";
                   Settle None "2024-01-05" writeOk;
                   Settle None "2024-01-06" writeRefused ]
             initialState))).
Proof.
  refine (proj1 (reachable_states_one_record_per_date _ _ _)).
  - repeat constructor. simpl. intros [].
  - simpl. repeat split; intros H; try discriminate H; reflexivity.
Defined.

Lemma revert_user_ids (existing : option WorkoutDay) (d : string)
    (wds : list WorkoutDay) (x : WorkoutDay) :
  In x (revertUpdate existing d wds) ->
  exists y, In y wds /\ user_id x = user_id y.
Proof.
  destruct existing as [w|]; simpl; intros Hin.
  - apply in_map_iff in Hin. destruct Hin as [y [<- Hy]].
    exists y. split; [exact Hy|]. now destruct (date y =? d).
  - apply filter_In in Hin. exists x. tauto.
Qed.

(** Records made by toggles carry the id of the user who toggled: when
    every record has the id of [u], so has every record after any run
    of toggles made by [u] or made without a user, on any context
    values. *)
Theorem toggles_keep_user_id (u : User)
    (ops : list (option User * list WorkoutDay * string * ActionOutcome))
    (st : TrackerState) :
  Forall (fun w => user_id w = id u) (workoutDays st) ->
  Forall (fun op => fst (fst (fst op)) = Some u
                    \/ fst (fst (fst op)) = None) ops ->
  Forall (fun w => user_id w = id u) (workoutDays (runToggles ops st)).
Proof.
  revert st. induction ops as [|[[[user rendered] d] o] rest IH];
    intros st Hst Hops.
  - exact Hst.
  - inversion Hops as [|? ? Hop Hrest]; subst. simpl in Hop. simpl.
    apply IH; [|exact Hrest].
    apply Forall_forall. intros w Hin.
    pose proof (proj1 (Forall_forall _ _) Hst) as Hall.
    destruct user as [u'|].
    + destruct Hop as [Hop | Hop]; [|discriminate].
      injection Hop as ->.
      rewrite toggle_unfold in Hin.
      assert (Hopt : forall x,
                In x (workoutDays (optimisticState u rendered d st)) ->
                user_id x = id u).
      { unfold optimisticState. intros x Hx.
        destruct (findDay d rendered); simpl in Hx.
        - apply in_map_iff in Hx. destruct Hx as [y [<- Hy]].
          destruct (date y =? d); simpl; now apply Hall.
        - apply in_app_iff in Hx. destruct Hx as [Hx | [<- | []]];
            [now apply Hall | reflexivity]. }
      destruct (writeFailed o) eqn:Ho.
      * rewrite (settle_failed _ _ _ _ Ho) in Hin. simpl in Hin.
        destruct (revert_user_ids _ _ _ _ Hin) as [y [Hy ->]].
        now apply Hopt.
      * rewrite (settle_succeeded _ _ _ _ Ho) in Hin. now apply Hopt.
    + now apply Hall.
Qed.

Lemma toggles_keep_user_id_witness :
  Forall (fun w => user_id w = id u1)
    (workoutDays
       (runToggles [ (Some u1, workoutDays jan5Done, "2024-01-06", writeOk);
                     (None, [], "2024-01-07", writeOk);
                     (Some u1, [], "2024-01-05", Rejects) ] jan5Done)).
Proof.
  apply (toggles_keep_user_id u1).
  - repeat constructor.
  - apply Forall_cons; [now left|].
    apply Forall_cons; [now right|].
    apply Forall_cons; [now left | apply Forall_nil].
Defined.

(** *** A rollback that comes late *)

(** The rollback is applied to the list as it is when the write has
    failed, which need not be the list the toggle left.  On any list,
    it leaves no record on the date when the toggle had found none, and
    gives every record on the date the value found before the toggle
    otherwise; so the date then reads as before the toggle, or as
    [false] when its record is gone.  Other dates, the number of
    records kept apart, are not touched. *)
Theorem late_rollback (existing : option WorkoutDay) (d : string)
    (o : ActionOutcome) (st : TrackerState) :
  writeFailed o = true ->
  let st' := settle existing d o st in
  isWorkoutCompleted st' d
  = match existing, findDay d (workoutDays st) with
    | Some w, Some _ => completed w
    | _, _ => false
    end
  /\ (existing = None -> findDay d (workoutDays st') = None)
  /\ (forall w x, existing = Some w -> In x (workoutDays st') ->
                  date x = d -> completed x = completed w)
  /\ (forall d', d' <> d ->
                 findDay d' (workoutDays st') = findDay d' (workoutDays st))
  /\ List.length (workoutDays st') <= List.length (workoutDays st).
Proof.
  intros Hfail st'. unfold st'. rewrite (settle_failed _ _ _ _ Hfail).
  simpl. repeat split.
  - rewrite isWorkoutCompleted_found. simpl.
    destruct existing as [w|]; simpl.
    + rewrite findDay_set_flag_same.
      destruct (findDay d (workoutDays st)); reflexivity.
    + rewrite findDay_filter_same.
      now destruct (findDay d (workoutDays st)).
  - intros ->. simpl. apply findDay_filter_same.
  - intros w x -> Hin Hd. simpl in Hin.
    exact (set_flag_value d (completed w) _ x Hin Hd).
  - intros d' Hne. now apply revert_other_date.
  - destruct existing as [w|]; simpl.
    + now rewrite length_map.
    + apply filter_length_le.
Qed.

(** The first toggle of a date is under way, a change notification
    brings the stored list, and then the write fails: the record that
    the store holds for the date is dropped from the local list. *)
Lemma late_rollback_witness :
  isWorkoutCompleted
    (settle None "2024-01-05" Rejects
       (fst (onPostgresChanges (Some u1) INSERT
               (ReadResolves (workoutDays jan5Done))
               (optimisticState u1 [] "2024-01-05" initialState))))
    "2024-01-05"
  = false.
Proof.
  exact (proj1 (late_rollback None "2024-01-05" Rejects
                  (fst (onPostgresChanges (Some u1) INSERT
                          (ReadResolves (workoutDays jan5Done))
                          (optimisticState u1 [] "2024-01-05" initialState)))
                  eq_refl)).
Defined.

(** *** Loading *)

Lemma idOrEmpty_user (u : User) : idOrEmpty (Some u) = id u.
Proof.
  unfold idOrEmpty. destruct (id u =? "") eqn:E; [|reflexivity].
  apply String.eqb_eq in E. now rewrite E.
Qed.

(** The second effect always ends with the loading flag cleared.  With
    a user and a client it issues one read, for the user's id: when the
    read resolves, the list is what was read and the error message is
    left as it was (an earlier message is not cleared); when it rejects,
    the list is left as it was and the message of the failure is
    recorded.  Without a user or without a client nothing is read and
    the list and the message stay. *)
Theorem load_effect_outcomes (user : option User) (read : ReadOutcome)
    (p : Provider) :
  let p' := fst (loadEffect user read p) in
  isLoading (tracker p') = false
  /\ supabase p' = supabase p
  /\ snd (loadEffect user read p)
     = match user, supabase p with
       | Some u, Some _ => [GetUserWorkouts (id u)]
       | _, _ => []
       end
  /\ workoutDays (tracker p')
     = match user, supabase p, read with
       | Some _, Some _, ReadResolves workouts => workouts
       | _, _, _ => workoutDays (tracker p)
       end
  /\ error (tracker p')
     = match user, supabase p, read with
       | Some _, Some _, ReadRejects thrown =>
           Some (messageOf thrown "Failed to load workouts")
       | _, _, _ => error (tracker p)
       end.
Proof.
  unfold loadEffect.
  destruct user as [u|], (supabase p) as [c|] eqn:Hc, read as [w|t];
    simpl; rewrite ?Hc; repeat split;
    unfold idOrEmpty; destruct (id u =? "") eqn:E; try reflexivity;
    apply String.eqb_eq in E; now rewrite E.
Qed.

(** In the browser the first effect always leaves a client, the real
    one or the mock, so the load that follows reads the user's records
    even when the client could not be created; in that case the message
    of the creation failure is still there after a load that went well.
    Outside the browser there is no client, nothing is read and the
    list stays empty. *)
Theorem load_after_client_creation (create : CreateOutcome) (u : User)
    (read : ReadOutcome) (p : Provider) :
  supabase (initClientEffect true create p) <> None
  /\ snd (loadEffect (Some u) read (initClientEffect true create p))
     = [GetUserWorkouts (id u)]
  /\ (forall thrown workouts,
        create = CreateThrows thrown ->
        read = ReadResolves workouts ->
        let st := tracker (fst (loadEffect (Some u) read
                                  (initClientEffect true create p))) in
        workoutDays st = workouts
        /\ error st
           = Some (messageOf thrown "Failed to initialize Supabase client")
        /\ isLoading st = false)
  /\ fst (loadEffect (Some u) read
            (initClientEffect false create initialProvider))
     = {| tracker := setIsLoading false initialState; supabase := None |}
  /\ snd (loadEffect (Some u) read
            (initClientEffect false create initialProvider)) = [].
Proof.
  repeat split.
  - destruct create; discriminate.
  - destruct create; cbn -[idOrEmpty]; now rewrite idOrEmpty_user.
  - subst. reflexivity.
  - subst. reflexivity.
  - subst. reflexivity.
Qed.

Lemma load_after_client_creation_witness :
  error (tracker (fst (loadEffect (Some u1)
                         (ReadResolves (workoutDays jan5Done))
                         (initClientEffect true
                            (CreateThrows (ErrorObject "missing url"))
                            initialProvider))))
  = Some "missing url".
Proof.
  destruct (load_after_client_creation
              (CreateThrows (ErrorObject "missing url")) u1
              (ReadResolves (workoutDays jan5Done)) initialProvider)
    as (_ & _ & Hkept & _).
  exact (proj1 (proj2 (Hkept (ErrorObject "missing url")
                         (workoutDays jan5Done) eq_refl eq_refl))).
Defined.

(** *** Change notifications *)


End TrackerExtras.


(* ================================================================== *)
(** ** More on the query actions: what they return and what they ask *)
(* ================================================================== *)

Module ActionsExtras.
Import Actions ActionsProofs.

(** *** Defaults *)

Lemma orElse_filled (o : option string) (fallback : string) :
  fallback <> "" -> orElse o fallback <> "".
Proof.
  intros Hf. unfold orElse. destruct o as [s|]; [|exact Hf].
  destruct (s =? "") eqn:E; [exact Hf|]. now apply String.eqb_neq.
Qed.

Lemma orNull_never_empty (o : option string) : orNull o <> Some "".
Proof.
  unfold orNull, truthyString. destruct o as [s|]; [|discriminate].
  destruct (s =? "") eqn:E; simpl; [discriminate|].
  apply String.eqb_neq in E. congruence.
Qed.

Lemma placeholderImage_filled : placeholderImage <> "".
Proof. discriminate. Qed.

(** Closes a goal [returnsAll P r] once the run has been reduced to a
    returned list, leaving [P] on the entries. *)
Ltac each_entry :=
  unfold returnsAll, completion; cbn -[map];
  eexists; split; [reflexivity|];
  lazymatch goal with
  | |- Forall _ [] => apply Forall_nil
  | |- Forall _ (map _ _) => apply Forall_map, Forall_forall; intros ? _
  | |- Forall _ [_] => apply Forall_cons; [|apply Forall_nil]
  end.

Lemma stretch_image_is_a_path (image_url : option string) :
  let imageUrl :=
    match image_url with
    | Some url =>
        if negb (url =? "") && (startsWith url "http" || startsWith url "/")
        then url else placeholderImage
    | None => placeholderImage
    end in
  startsWith imageUrl "http" || startsWith imageUrl "/" = true.
Proof.
  destruct image_url as [url|]; [|reflexivity].
  destruct (negb (url =? "") && (startsWith url "http" || startsWith url "/"))
    eqn:E; [|reflexivity].
  now apply andb_prop in E.
Qed.

Ltac image_filled :=
  cbn -[orElse placeholderImage];
  first [ apply orElse_filled; exact placeholderImage_filled
        | exact placeholderImage_filled ].

(** Every exercise that an action returns has an image: the stored one
    or the placeholder, never the empty string.  For the stretches the
    image is a path or an http address. *)
Theorem returned_exercises_have_an_image (js : Builtins) (sb : Supabase)
    (type : ExerciseType) (n : Z) :
  returnsAll (fun x => ExerciseWithLabels.image x <> "")
    (getWarmupExercises sb)
  /\ returnsAll
       (fun x => startsWith (ExerciseWithLabels.image x) "http"
                 || startsWith (ExerciseWithLabels.image x) "/" = true)
       (getStretchExercises sb)
  /\ returnsAll (fun x => ExerciseWithLabels.image x <> "")
       (getWorkoutExercises sb)
  /\ returnsAll (fun x => ExerciseWithLabels.image x <> "")
       (getExercisesByType sb type)
  /\ returnsAll (fun x => ExerciseWithLabels.image x <> "")
       (getExercisesByGroup js sb n)
  /\ (forall x, completion (getExerciseById sb n) = Return (Some x) ->
                ExerciseWithLabels.image x <> "").
Proof.
  repeat apply conj.
  - unfold getWarmupExercises. branch; each_entry; image_filled.
  - unfold getStretchExercises. branch; each_entry; cbn -[startsWith];
      first [ reflexivity | apply stretch_image_is_a_path ].
  - unfold getWorkoutExercises. branch; each_entry; image_filled.
  - unfold getExercisesByType. branch; each_entry; image_filled.
  - unfold getExercisesByGroup. branch; each_entry; image_filled.
  - unfold getExerciseById. branch; cbn; intros x Hx; try discriminate.
    injection Hx as <-. image_filled.
Qed.

Ltac filled :=
  eexists; split;
  [ reflexivity
  | first [ apply orElse_filled; discriminate | discriminate ] ].

(** Every warm-up returned has a description, a duration and a number
    of repetitions, none of them empty, and every stretch a description
    and a duration: what the store leaves out is filled in with the
    defaults.  Neither has labels or categories. *)
Theorem warmups_and_stretches_are_filled_in (sb : Supabase) :
  returnsAll
    (fun x => nonEmpty (ExerciseWithLabels.description x)
              /\ nonEmpty (ExerciseWithLabels.duration x)
              /\ nonEmpty (ExerciseWithLabels.reps x)
              /\ ExerciseWithLabels.labels x = []
              /\ ExerciseWithLabels.categories x = None)
    (getWarmupExercises sb)
  /\ returnsAll
       (fun x => nonEmpty (ExerciseWithLabels.description x)
                 /\ nonEmpty (ExerciseWithLabels.duration x)
                 /\ ExerciseWithLabels.reps x <> Some ""
                 /\ ExerciseWithLabels.labels x = []
                 /\ ExerciseWithLabels.categories x = None)
       (getStretchExercises sb).
Proof.
  split.
  - unfold getWarmupExercises. branch; each_entry;
      cbn -[orElse]; repeat apply conj; try reflexivity; filled.
  - unfold getStretchExercises. branch; each_entry;
      cbn -[orElse orNull]; repeat apply conj; try reflexivity;
      first [ filled | apply orNull_never_empty | discriminate ].
Qed.

(** *** Rows and entries *)

(** When the category is found and holds exercises, the three
    dedicated actions return one entry per row, with the ids and the
    names of the rows, in their order; the category used is the first
    that matches, and two queries are made. *)
Theorem exercises_follow_the_rows (sb : Supabase) (c : Category.t)
    (cs : list Category.t) (r : Exercise.t) (rs : list Exercise.t) :
  exercises_by_category sb (Category.id c) = Success (Some (r :: rs)) ->
  (categories_ilike sb "%warmup%" = Success (Some (c :: cs)) ->
   exists l,
     getWarmupExercises sb
     = ([(CategoriesIlike "%warmup%", Answered);
         (ExercisesByCategory (Category.id c), Answered)], Return l)
     /\ map ExerciseWithLabels.id l = map Exercise.id (r :: rs)
     /\ map ExerciseWithLabels.name l = map Exercise.name (r :: rs))
  /\ (categories_ilike sb "%stretch%" = Success (Some (c :: cs)) ->
      exists l,
        getStretchExercises sb
        = ([(CategoriesIlike "%stretch%", Answered);
            (ExercisesByCategory (Category.id c), Answered)], Return l)
        /\ map ExerciseWithLabels.id l = map Exercise.id (r :: rs)
        /\ map ExerciseWithLabels.name l = map Exercise.name (r :: rs))
  /\ (categories_ilike sb "%workout%" = Success (Some (c :: cs)) ->
      exists l,
        getWorkoutExercises sb
        = ([(CategoriesIlike "%workout%", Answered);
            (ExercisesByCategory (Category.id c), Answered)], Return l)
        /\ map ExerciseWithLabels.id l = map Exercise.id (r :: rs)
        /\ map ExerciseWithLabels.name l = map Exercise.name (r :: rs)).
Proof.
  intros Hrows. repeat apply conj; intros Hcat.
  - unfold getWarmupExercises. rewrite Hcat. cbn -[map]. rewrite Hrows.
    cbn -[map]. eexists. split; [reflexivity|].
    rewrite !map_map. split; reflexivity.
  - unfold getStretchExercises. rewrite Hcat. cbn -[map]. rewrite Hrows.
    cbn -[map]. eexists. split; [reflexivity|].
    rewrite !map_map. split; reflexivity.
  - unfold getWorkoutExercises. rewrite Hcat. cbn -[map]. rewrite Hrows.
    cbn -[map]. eexists. split; [reflexivity|].
    rewrite !map_map. split; reflexivity.
Qed.

(** When the category is found and holds no exercise, the warm-ups and
    the stretches are the one placeholder of the action.  The workouts
    are then taken from any ten exercises, one entry per row, and are
    the placeholder only when those are missing too. *)
Theorem empty_category_gives_placeholder (sb : Supabase) (c : Category.t)
    (cs : list Category.t) :
  exercises_by_category sb (Category.id c) = Success (Some [])
  \/ exercises_by_category sb (Category.id c) = Success None ->
  (categories_ilike sb "%warmup%" = Success (Some (c :: cs)) ->
   completion (getWarmupExercises sb) = Return [warmupPlaceholder])
  /\ (categories_ilike sb "%stretch%" = Success (Some (c :: cs)) ->
      completion (getStretchExercises sb) = Return [stretchPlaceholder])
  /\ (categories_ilike sb "%workout%" = Success (Some (c :: cs)) ->
      match exercises_limit_10 sb with
      | Success (Some (r :: rs)) =>
          exists l,
            completion (getWorkoutExercises sb) = Return l
            /\ map ExerciseWithLabels.id l = map Exercise.id (r :: rs)
            /\ asked (getWorkoutExercises sb)
               = [CategoriesIlike "%workout%";
                  ExercisesByCategory (Category.id c); ExercisesLimit10]
      | Success (Some []) | Success None | Failure _ =>
          completion (getWorkoutExercises sb) = Return [workoutPlaceholder]
      | Rejected _ => completion (getWorkoutExercises sb) = Return []
      end).
Proof.
  intros Hrows. repeat apply conj; intros Hcat.
  - unfold getWarmupExercises. rewrite Hcat. cbn -[map].
    destruct Hrows as [-> | ->]; reflexivity.
  - unfold getStretchExercises. rewrite Hcat. cbn -[map].
    destruct Hrows as [-> | ->]; reflexivity.
  - unfold getWorkoutExercises, asked, issued. rewrite Hcat. cbn -[map].
    destruct Hrows as [-> | ->]; cbn -[map];
      destruct (exercises_limit_10 sb) as [[[|r rs]|]|e|x]; cbn -[map];
      try reflexivity;
      (eexists; split; [reflexivity|]); rewrite !map_map; split; reflexivity.
Qed.

(** [getExercisesByType] has no placeholder: when the category is
    found and the query for its exercises answers, the entries are the
    rows, one for one and none when there is no row.  Whatever the
    store does, its entries have no labels and an empty list of
    categories, where the dedicated actions for the same type give no
    list at all or the default categories. *)
Theorem by_type_follows_the_rows (sb : Supabase) (type : ExerciseType) :
  returnsAll (fun x => ExerciseWithLabels.labels x = []
                       /\ ExerciseWithLabels.categories x = Some [])
    (getExercisesByType sb type)
  /\ (forall c cs rows,
        category_ids_ilike sb
          match type with
          | warmup => "%warmup%"
          | stretch => "%stretch%"
          | workout => "%workout%"
          end = Success (Some (c :: cs)) ->
        exercises_by_category sb (CategoryId.id c) = Success (Some rows) ->
        exists l,
          completion (getExercisesByType sb type) = Return l
          /\ map ExerciseWithLabels.id l = map Exercise.id rows
          /\ map ExerciseWithLabels.name l = map Exercise.name rows
          /\ map ExerciseWithLabels.description l
             = map Exercise.ex_description rows).
Proof.
  split.
  - unfold getExercisesByType. branch; each_entry; split; reflexivity.
  - intros c cs rows Hcat Hrows. unfold getExercisesByType.
    rewrite Hcat. cbn -[map]. rewrite Hrows. cbn -[map].
    eexists. split; [reflexivity|].
    rewrite !map_map. repeat split.
Qed.

Lemma exercises_follow_the_rows_witness :
  exists l,
    getWarmupExercises stockedStore
    = ([(CategoriesIlike "%warmup%", Answered);
        (ExercisesByCategory "c1", Answered)], Return l)
    /\ map ExerciseWithLabels.id l = [7%Z; 9%Z]
    /\ map ExerciseWithLabels.name l = ["Push Up Press"; "Plank"].
Proof.
  exact (proj1 (exercises_follow_the_rows stockedStore
                  {| Category.id := "c1"; Category.name := "Warmup" |}
                  [ {| Category.id := "c2"; Category.name := "Warmup (old)" |} ]
                  pushUp [plank] eq_refl) eq_refl).
Defined.

Lemma empty_category_gives_placeholder_witness :
  completion (getStretchExercises fallbackDownStore)
  = Return [stretchPlaceholder].
Proof.
  exact (proj1 (proj2 (empty_category_gives_placeholder fallbackDownStore
                         {| Category.id := "c3"; Category.name := "Workout" |}
                         [] (or_introl eq_refl))) eq_refl).
Defined.

Lemma by_type_follows_the_rows_witness :
  exists l,
    completion (getExercisesByType stockedStore stretch) = Return l
    /\ map ExerciseWithLabels.id l = [7%Z; 9%Z]
    /\ map ExerciseWithLabels.name l = ["Push Up Press"; "Plank"]
    /\ map ExerciseWithLabels.description l
       = [None; Some "Hold the position"].
Proof.
  exact (proj2 (by_type_follows_the_rows stockedStore stretch)
           {| CategoryId.id := "c1" |} [] [pushUp; plank] eq_refl eq_refl).
Defined.

(** *** What is asked of the store *)

(** No action awaits another query once one has thrown, and each
    starts with its own first query and stays within a fixed number of
    queries: one for an exercise by id and for the body sections, two
    for the warm-ups, the stretches and the exercises by type, three
    for the workouts, four for the groups and for the exercises of a
    group. *)
Theorem queries_are_bounded (js : Builtins) (sb : Supabase)
    (type : ExerciseType) (n : Z) :
  keepsTo (getWarmupExercises sb) (CategoriesIlike "%warmup%") 2
  /\ keepsTo (getStretchExercises sb) (CategoriesIlike "%stretch%") 2
  /\ keepsTo (getWorkoutExercises sb) (CategoriesIlike "%workout%") 3
  /\ keepsTo (getExercisesByType sb type)
       (CategoryIdsIlike match type with
                         | warmup => "%warmup%"
                         | stretch => "%stretch%"
                         | workout => "%workout%"
                         end) 2
  /\ keepsTo (getExerciseById sb n) (ExerciseById n) 1
  /\ keepsTo (getExerciseGroups sb) RpcGetExerciseGroupsWithDetails 4
  /\ keepsTo (getExercisesByGroup js sb n) (ExerciseGroupDetail n) 4
  /\ keepsTo (getBodySections sb) BodySectionsOrdered 1.
Proof.
  unfold keepsTo, asked, issued.
  repeat apply conj;
    lazymatch goal with
    | |- context [getWarmupExercises] => unfold getWarmupExercises
    | |- context [getStretchExercises] => unfold getStretchExercises
    | |- context [getWorkoutExercises] => unfold getWorkoutExercises
    | |- context [getExercisesByType] => unfold getExercisesByType
    | |- context [getExerciseById] => unfold getExerciseById
    | |- context [getExerciseGroups] => unfold getExerciseGroups
    | |- context [getExercisesByGroup] => unfold getExercisesByGroup
    | |- context [getBodySections] => unfold getBodySections
    end;
    branch; first [ reflexivity | cbn; lia ].
Qed.

(** The exercises of a category are only asked for with the id of the
    first category that the category query has answered with: never
    when that query found nothing, reported an error or threw, and
    never for a later match. *)
Theorem exercises_asked_for_first_category (sb : Supabase)
    (type : ExerciseType) (id : string) :
  (In (ExercisesByCategory id) (asked (getWarmupExercises sb)) ->
   exists c cs, categories_ilike sb "%warmup%" = Success (Some (c :: cs))
                /\ id = Category.id c)
  /\ (In (ExercisesByCategory id) (asked (getStretchExercises sb)) ->
      exists c cs, categories_ilike sb "%stretch%" = Success (Some (c :: cs))
                   /\ id = Category.id c)
  /\ (In (ExercisesByCategory id) (asked (getWorkoutExercises sb)) ->
      exists c cs, categories_ilike sb "%workout%" = Success (Some (c :: cs))
                   /\ id = Category.id c)
  /\ (In (ExercisesByCategory id) (asked (getExercisesByType sb type)) ->
      exists c cs,
        category_ids_ilike sb
          match type with
          | warmup => "%warmup%"
          | stretch => "%stretch%"
          | workout => "%workout%"
          end = Success (Some (c :: cs))
        /\ id = CategoryId.id c).
Proof.
  unfold asked, issued.
  repeat apply conj;
    lazymatch goal with
    | |- context [getWarmupExercises] => unfold getWarmupExercises
    | |- context [getStretchExercises] => unfold getStretchExercises
    | |- context [getWorkoutExercises] => unfold getWorkoutExercises
    | |- context [getExercisesByType] => unfold getExercisesByType
    end;
    branch; cbn; intros Hin;
    repeat (destruct Hin as [Hin | Hin]); try discriminate;
    try contradiction;
    injection Hin as <-; eauto.
Qed.

Lemma exercises_asked_for_first_category_witness :
  exists c cs,
    categories_ilike stockedStore "%warmup%" = Success (Some (c :: cs))
    /\ "c1" = Category.id c.
Proof.
  apply (proj1 (exercises_asked_for_first_category stockedStore warmup "c1")).
  cbn. right. left. reflexivity.
Defined.

(** *** One exercise *)

(** [getExerciseById] returns an exercise exactly when the store
    answers with a row: it then carries the id, the name and the
    description of the row as they are, and the default categories of
    the name.  In every other case (no row, an error, a thrown
    exception) it returns [undefined]. *)
Theorem exercise_by_id_iff_row (sb : Supabase) (n : Z) :
  (forall row, exercise_by_id sb n = Success (Some row) ->
     exists x,
       completion (getExerciseById sb n) = Return (Some x)
       /\ ExerciseWithLabels.id x = Exercise.id row
       /\ ExerciseWithLabels.name x = Exercise.name row
       /\ ExerciseWithLabels.description x = Exercise.ex_description row
       /\ ExerciseWithLabels.categories x
          = Some (getDefaultCategories (Exercise.name row)))
  /\ (forall x, completion (getExerciseById sb n) = Return (Some x) ->
        exists row, exercise_by_id sb n = Success (Some row)).
Proof.
  unfold getExerciseById. split.
  - intros row ->. cbn. eexists. repeat split.
  - destruct (exercise_by_id sb n) as [[row|]|e|t]; cbn; intros x Hx;
      try discriminate. now exists row.
Qed.

Lemma exercise_by_id_iff_row_witness :
  exists x,
    completion (getExerciseById stockedStore 7) = Return (Some x)
    /\ ExerciseWithLabels.id x = 7%Z
    /\ ExerciseWithLabels.name x = "Push Up Press"
    /\ ExerciseWithLabels.description x = None
    /\ ExerciseWithLabels.categories x
       = Some (getDefaultCategories "Push Up Press").
Proof.
  exact (proj1 (exercise_by_id_iff_row stockedStore 7) pushUp eq_refl).
Defined.

(** *** Groups *)

Lemma find_append {A : Type} (p : A -> bool) (l1 l2 : list A) :
  find p (l1 ++ l2)
  = match find p l1 with
    | Some x => Some x
    | None => find p l2
    end.
Proof.
  induction l1 as [|a rest IH]; simpl; [reflexivity|].
  destruct (p a); [reflexivity | exact IH].
Qed.

(** The lookup object built from rows answers, for a key, with the
    value of the last row that has this key, and with nothing when no
    row has it. *)
Lemma lookup_built_from_rows {A : Type} (key : A -> Z)
    (value : A -> string) (rows : list A) (k : Z) :
  mapGet (mapOfRows key value rows) k
  = option_map value (find (fun row => (key row =? k)%Z) (rev rows)).
Proof.
  unfold mapOfRows.
  assert (Hgen : forall acc,
    mapGet (fold_left (fun acc item => (key item, value item) :: acc)
              rows acc) k
    = match find (fun row => (key row =? k)%Z) (rev rows) with
      | Some row => Some (value row)
      | None => mapGet acc k
      end).
  { induction rows as [|row rest IH]; intros acc; simpl; [reflexivity|].
    rewrite IH, find_append.
    destruct (find (fun row => (key row =? k)%Z) (rev rest)); [reflexivity|].
    unfold mapGet. simpl. destruct (key row =? k)%Z; reflexivity. }
  rewrite Hgen.
  destruct (find (fun row => (key row =? k)%Z) (rev rows)); reflexivity.
Qed.

Ltac group_entry :=
  cbn -[orNull mapGet mapOfRows Z.eqb];
  repeat apply conj; try reflexivity;
  repeat match goal with
         | |- context [if ?c then _ else _] => destruct c
         | |- context [match ?x with _ => _ end] => destruct x
         end;
  first [ apply orNull_never_empty | discriminate ].

(** Every group returned, by the procedure or by the direct query, has
    no description and no category id, and the names of its body
    section and of its level are either missing or not empty.  When the
    procedure answers, the groups are its rows, one for one, and
    nothing else is asked of the store. *)
Theorem groups_returned (sb : Supabase) :
  returnsAll
    (fun g => ExerciseGroup.description g = None
              /\ ExerciseGroup.category_id g = None
              /\ ExerciseGroup.body_section_name g <> Some ""
              /\ ExerciseGroup.fir_level_name g <> Some "")
    (getExerciseGroups sb)
  /\ (forall data,
        rpc_get_exercise_groups_with_details sb = Success data ->
        let rows := match data with Some l => l | None => [] end in
        exists groups,
          getExerciseGroups sb
          = ([(RpcGetExerciseGroupsWithDetails, Answered)], Return groups)
          /\ map ExerciseGroup.id groups = map RpcGroup.id rows
          /\ map ExerciseGroup.name groups = map RpcGroup.name rows
          /\ map ExerciseGroup.body_sec groups = map RpcGroup.body_sec rows
          /\ map ExerciseGroup.fir_level groups
             = map RpcGroup.fir_level rows).
Proof.
  split.
  - unfold getExerciseGroups. branch; each_entry; group_entry.
  - intros data Hrpc rows. unfold getExerciseGroups. rewrite Hrpc.
    cbn -[map]. eexists. split; [reflexivity|].
    rewrite !map_map. repeat split.
Qed.

Lemma groups_returned_witness :
  exists groups,
    getExerciseGroups quietStore
    = ([(RpcGetExerciseGroupsWithDetails, Answered)], Return groups)
    /\ map ExerciseGroup.id groups = [].
Proof.
  destruct (proj2 (groups_returned quietStore) (Some []) eq_refl)
    as (groups & Hrun & Hids & _).
  exists groups. split; [exact Hrun | exact Hids].
Defined.

(** *** The exercises of a group *)

Lemma groupCategories_shape (js : Builtins) (bodySection : option string)
    (firLevel exerciseName : string) :
  exists region,
    groupCategories js bodySection firLevel exerciseName
    = (region ++ [("FIR: " ++ firLevel)%string])%list
    /\ List.length region <= 1.
Proof.
  unfold groupCategories.
  destruct (truthyString bodySection).
  - destruct bodySection as [s|]; eexists; split; try reflexivity; simpl; lia.
  - destruct (find _ (getDefaultCategories exerciseName));
      eexists; split; try reflexivity; simpl; lia.
Qed.

(** As [branch], with the computation of the categories, of the
    section and of the level left folded. *)
Ltac branch_group :=
  repeat (cbn -[String.eqb Z.eqb toString getDefaultCategories map
                groupCategories orNull orElse truthyString];
          match goal with
          | |- context [await _ ?r] => destruct r as [[?|]|?|?]
          | |- context [match ?x with _ => _ end] => is_var x; destruct x
          | |- context [match ?x with _ => _ end] =>
              lazymatch type of x with
              | prod _ _ => fail
              | Run _ => fail
              | _ => destruct x
              end
          end).

(** All the exercises returned for a group carry the same level: the
    categories of each are at most one body region followed by
    [FIR: level], for one level; none has labels. *)
Theorem group_exercises_share_a_level (js : Builtins) (sb : Supabase)
    (n : Z) :
  exists level,
    returnsAll
      (fun x => ExerciseWithLabels.labels x = []
                /\ exists region,
                     ExerciseWithLabels.categories x
                     = Some (region ++ [("FIR: " ++ level)%string])%list
                     /\ List.length region <= 1)
      (getExercisesByGroup js sb n).
Proof.
  unfold getExercisesByGroup.
  branch_group;
    first [ solve [exists ""; each_entry]
          | eexists; unfold returnsAll, completion;
            cbn -[map groupCategories];
            eexists; (split; [reflexivity|]);
            apply Forall_map, Forall_forall; intros ? _;
            cbn -[groupCategories];
            (split; [reflexivity|]);
            match goal with
            | |- context [groupCategories ?j ?b ?l ?e] =>
                destruct (groupCategories_shape j b l e)
                  as [region [-> Hlen]]
            end;
            exists region; split; [reflexivity | exact Hlen] ].
Qed.

(** With the group found and holding exercises, and no look-up
    throwing, the entries are the rows of the group, one for one.  When
    the group holds no exercise the result is empty and the store is
    asked just twice: for the group and for its exercises. *)
Theorem group_exercises_follow_the_rows (js : Builtins) (sb : Supabase)
    (n : Z) (g : GroupDetail.t) :
  exercise_group_detail sb n = Success (Some g) ->
  (forall r rs,
     exercises_by_group sb (toString js n) = Success (Some (r :: rs)) ->
     anyThrew (issued (getExercisesByGroup js sb n)) = false ->
     exists l,
       completion (getExercisesByGroup js sb n) = Return l
       /\ map ExerciseWithLabels.id l = map Exercise.id (r :: rs)
       /\ map ExerciseWithLabels.name l = map Exercise.name (r :: rs))
  /\ (exercises_by_group sb (toString js n) = Success (Some [])
      \/ exercises_by_group sb (toString js n) = Success None ->
      getExercisesByGroup js sb n
      = ([(ExerciseGroupDetail n, Answered);
          (ExercisesByGroup (toString js n), Answered)], Return [])).
Proof.
  intros Hgroup. split.
  - intros r rs Hrows. unfold getExercisesByGroup.
    rewrite Hgroup. cbn -[map toString Z.eqb String.eqb]. rewrite Hrows.
    branch; cbn -[map]; intros Hthrew; try discriminate;
      (eexists; split; [reflexivity|]); rewrite !map_map;
      split; reflexivity.
  - intros Hrows. unfold getExercisesByGroup.
    rewrite Hgroup. cbn -[map toString Z.eqb String.eqb].
    destruct Hrows as [-> | ->]; reflexivity.
Qed.

Lemma group_exercises_follow_the_rows_witness :
  exists l,
    completion (getExercisesByGroup asciiBuiltins stockedStore 4) = Return l
    /\ map ExerciseWithLabels.id l = [7%Z; 9%Z]
    /\ map ExerciseWithLabels.name l = ["Push Up Press"; "Plank"].
Proof.
  exact (proj1 (group_exercises_follow_the_rows asciiBuiltins stockedStore 4
                  _ eq_refl)
           pushUp [plank] eq_refl eq_refl).
Defined.

Example group_exercises_of_the_stocked_store :
  option_map (map ExerciseWithLabels.categories)
    (match completion (getExercisesByGroup asciiBuiltins stockedStore 4) with
     | Return l => Some l
     | Throw _ => None
     end)
  = Some [Some ["Upper"; "FIR: High"]; Some ["Upper"; "FIR: High"]].
Proof. reflexivity. Qed.

Lemma orNull_filled (s : string) : s <> "" -> orNull (Some s) = Some s.
Proof.
  intros Hs. unfold orNull, truthyString.
  apply String.eqb_neq in Hs. now rewrite Hs.
Qed.

Lemma orElse_stored (s fallback : string) :
  s <> "" -> orElse (Some s) fallback = s.
Proof.
  intros Hs. unfold orElse. apply String.eqb_neq in Hs. now rewrite Hs.
Qed.

Lemma truthyString_filled (s : string) :
  s <> "" -> truthyString (Some s) = true.
Proof.
  intros Hs. unfold truthyString. apply String.eqb_neq in Hs. now rewrite Hs.
Qed.

(** When the group comes with its body section and its level (as an
    object or as the first of an array), with names that are not empty
    and a level that is not named Low, the store is asked twice only
    and every exercise gets the section, its first letter in upper
    case, and [FIR: level] as categories. *)
Theorem joined_section_and_level_are_used (js : Builtins) (sb : Supabase)
    (n : Z) (g : GroupDetail.t) (section : BodySection.t) (level : Fir.t)
    (r : Exercise.t) (rs : list Exercise.t) :
  exercise_group_detail sb n = Success (Some g) ->
  exercises_by_group sb (toString js n) = Success (Some (r :: rs)) ->
  (GroupDetail.exercise_body_section g = JObject section
   \/ exists more,
        GroupDetail.exercise_body_section g = JArray (section :: more)) ->
  (GroupDetail.exercise_fir g = JObject level
   \/ exists more, GroupDetail.exercise_fir g = JArray (level :: more)) ->
  BodySection.body_section section <> "" ->
  Fir.name level <> "" ->
  Fir.name level <> "Low" ->
  asked (getExercisesByGroup js sb n)
  = [ExerciseGroupDetail n; ExercisesByGroup (toString js n)]
  /\ returnsAll
       (fun x => ExerciseWithLabels.categories x
                 = Some [capitalize js (BodySection.body_section section);
                         "FIR: " ++ Fir.name level])
       (getExercisesByGroup js sb n).
Proof.
  intros Hgroup Hrows Hsection Hlevel Hs Hl Hlow.
  assert (Hsec0 :
    match GroupDetail.exercise_body_section g with
    | JArray joined =>
        orNull (option_map BodySection.body_section (hd_error joined))
    | JObject joined => orNull (Some (BodySection.body_section joined))
    | JMissing | JScalar => None
    end = Some (BodySection.body_section section)).
  { destruct Hsection as [-> | [more ->]]; simpl; now apply orNull_filled. }
  assert (Hlev0 :
    match GroupDetail.exercise_fir g with
    | JArray joined => orElse (option_map Fir.name (hd_error joined)) "Low"
    | JObject joined => orElse (Some (Fir.name joined)) "Low"
    | JMissing | JScalar => "Low"
    end = Fir.name level).
  { destruct Hlevel as [-> | [more ->]]; simpl; now apply orElse_stored. }
  apply String.eqb_neq in Hlow.
  unfold asked, issued, returnsAll, completion, getExercisesByGroup.
  rewrite Hgroup.
  cbn -[map toString Z.eqb String.eqb orNull orElse truthyString
        groupCategories capitalize].
  rewrite Hrows.
  cbn -[map toString Z.eqb String.eqb orNull orElse truthyString
        groupCategories capitalize].
  rewrite Hsec0, Hlev0, (truthyString_filled _ Hs), Hlow.
  cbn -[map toString Z.eqb String.eqb orNull orElse truthyString
        groupCategories capitalize].
  destruct (GroupDetail.fir_level g);
    cbn -[map toString groupCategories];
    (split; [reflexivity|]);
    (eexists; split; [reflexivity|]);
    apply Forall_map, Forall_forall; intros x _;
    cbn -[groupCategories]; unfold groupCategories;
    rewrite (truthyString_filled _ Hs); reflexivity.
Qed.

Lemma joined_section_and_level_are_used_witness :
  asked (getExercisesByGroup asciiBuiltins stockedStore 4)
  = [ExerciseGroupDetail 4; ExercisesByGroup "4"]
  /\ returnsAll
       (fun x => ExerciseWithLabels.categories x
                 = Some ["Upper"; "FIR: High"])
       (getExercisesByGroup asciiBuiltins stockedStore 4).
Proof.
  refine (joined_section_and_level_are_used asciiBuiltins stockedStore 4 _
            {| BodySection.id := 3; BodySection.body_section := "upper" |}
            {| Fir.id := 2; Fir.name := "High" |}
            pushUp [plank] eq_refl eq_refl (or_introl eq_refl) _ _ _ _).
  - right. exists []. reflexivity.
  - discriminate.
  - discriminate.
  - discriminate.
Defined.

(** When the procedure reports an error and the three tables answer,
    each group is named from the tables: its level gets the name of the
    last row of [exercise_fir] with its [fir_level] as id, its section
    the [body_section] of the last row of [exercise_body_section] with
    its [body_sec] as id.  The name is missing when the id is 0 or
    [null], when no row has the id, and when the name found is
    empty. *)
Theorem fallback_groups_are_named_from_the_tables (sb : Supabase)
    (e : PostgrestError) (rows : list GroupRow.t) (levels : list Fir.t)
    (sections : list BodySection.t) :
  rpc_get_exercise_groups_with_details sb = Failure e ->
  exercise_groups_by_name sb = Success (Some rows) ->
  exercise_fir_all sb = Success (Some levels) ->
  exercise_body_section_all sb = Success (Some sections) ->
  exists groups,
    completion (getExerciseGroups sb) = Return groups
    /\ map ExerciseGroup.fir_level_name groups
       = map (fun row =>
                match GroupRow.fir_level row with
                | Some k =>
                    if (k =? 0)%Z then None
                    else orNull (option_map Fir.name
                                   (find (fun l => (Fir.id l =? k)%Z)
                                      (rev levels)))
                | None => None
                end) rows
    /\ map ExerciseGroup.body_section_name groups
       = map (fun row =>
                if (GroupRow.body_sec row =? 0)%Z then None
                else orNull (option_map BodySection.body_section
                               (find (fun s => (BodySection.id s
                                                =? GroupRow.body_sec row)%Z)
                                  (rev sections)))) rows.
Proof.
  intros Hrpc Hrows Hlevels Hsections. unfold getExerciseGroups.
  rewrite Hrpc, Hrows, Hlevels, Hsections.
  cbn -[map mapGet mapOfRows orNull Z.eqb].
  eexists. split; [reflexivity|].
  rewrite !map_map. split; apply map_ext; intros row;
    cbn -[mapGet mapOfRows orNull Z.eqb].
  - destruct (GroupRow.fir_level row) as [k|]; [|reflexivity].
    destruct (k =? 0)%Z; [reflexivity|]. cbn -[mapGet mapOfRows orNull].
    now rewrite lookup_built_from_rows.
  - destruct (GroupRow.body_sec row =? 0)%Z; [reflexivity|].
    cbn -[mapGet mapOfRows orNull].
    now rewrite lookup_built_from_rows.
Qed.

Lemma fallback_groups_are_named_from_the_tables_witness :
  exists groups,
    completion (getExerciseGroups rpcDownStore) = Return groups
    /\ map ExerciseGroup.fir_level_name groups = [Some "Moderate"]
    /\ map ExerciseGroup.body_section_name groups = [Some "lower"].
Proof.
  exact (fallback_groups_are_named_from_the_tables rpcDownStore _ _ _ _
           eq_refl eq_refl eq_refl eq_refl).
Defined.

(** *** Default categories *)

Lemma default_categories_shape (exerciseName : string) :
  exists region,
    getDefaultCategories exerciseName = (region ++ ["FIR: Low"])%list
    /\ (region = [] \/ exists r, region = [r] /\ In r bodyRegions).
Proof.
  unfold getDefaultCategories, bodyRegions.
  repeat match goal with
         | |- context [if ?c then _ else _] => destruct c
         end;
    eexists; (split; [reflexivity|]);
    first [ left; reflexivity
          | right; eexists; split; [reflexivity | simpl; auto 6] ].
Qed.

(** Every workout returned, and the exercise returned by id, has a
    list of categories: the single [Sample] for the placeholder, and
    otherwise at most one of the three body regions followed by
    [FIR: Low]. *)
Theorem workouts_carry_default_categories (sb : Supabase) (n : Z) :
  returnsAll
    (fun x => (x = workoutPlaceholder
               /\ ExerciseWithLabels.categories x = Some ["Sample"])
              \/ hasDefaultCategories x)
    (getWorkoutExercises sb)
  /\ (forall x, completion (getExerciseById sb n) = Return (Some x) ->
                hasDefaultCategories x).
Proof.
  unfold hasDefaultCategories. split.
  - unfold getWorkoutExercises.
    branch; each_entry;
      first [ left; split; reflexivity
            | right; cbn -[getDefaultCategories];
              match goal with
              | |- context [getDefaultCategories ?name] =>
                  destruct (default_categories_shape name)
                    as [region [-> Hregion]]
              end;
              exists region; split; [reflexivity | exact Hregion] ].
  - unfold getExerciseById. branch; cbn -[getDefaultCategories];
      intros x Hx; try discriminate.
    injection Hx as <-. cbn -[getDefaultCategories].
    match goal with
    | |- context [getDefaultCategories ?name] =>
        destruct (default_categories_shape name) as [region [-> Hregion]]
    end.
    exists region. split; [reflexivity | exact Hregion].
Qed.

End ActionsExtras.
